(** * python-project-setup: reader / writer factories and the config factory

    A shallow embedding of
      - [backend/src/data/reader/{interface,csv,excel,factory}.py],
      - [backend/src/data/writer/{interface,factory}.py],
      - [config/name_space.py],
    followed by the properties of the specification, stated over it.

    Python values are a small inductive type; every method is a computation
    in a state-and-exception monad whose state is the instance dictionary of
    [self] together with a log of the calls that leave the interpreter
    (handler instantiation, pandas, open, dotenv).  The third-party
    libraries are a record of functions, [Libs]: the code is verified for
    every behaviour they may have.

    Text is ASCII: [lower], [upper], [capitalize] and [Config.split] are
    the methods of [str] on strings of ASCII characters; they carry every
    other character unchanged, where [str] follows Unicode.  A property
    that rests on the case or the splitting of a sheet name is stated for
    ASCII names ([ascii_only]). *)

From Stdlib Require Import ZArith Ascii String.
From stdpp Require Import base gmap strings list.

(** ** Python values *)

(** Hashable scalars: dictionary keys, index labels and cells of a table. *)
Inductive scalar :=
| SNone
| SBool (b : bool)
| SInt (z : Z)
| SStr (s : string).

(** A pandas table read with an index column: the column labels, and one
    entry per row holding the index label and the cells, in column order. *)
Record DataFrame := mkDataFrame {
  df_columns : list string;
  df_rows : list (scalar * list scalar)
}.

#[warnings="-register-all"]
Inductive pyval :=
| PScalar (c : scalar)
| PList (l : list pyval)
| PDict (items : list (scalar * pyval))      (* insertion-ordered dict *)
| PDataFrame (df : DataFrame)
| PNamespace (attrs : list (string * pyval)). (* types.SimpleNamespace *)

Abbreviation PNone := (PScalar SNone).
Abbreviation PStr s := (PScalar (SStr s)).

Definition kwargs := list (string * pyval).

#[global] Instance scalar_eq_dec : EqDecision scalar.
Proof. solve_decision. Defined.

(** ** Exceptions and results *)

Inductive exn :=
| KeyError (key : scalar)
| NameError (name : string)
| AttributeError (name : string)
| TypeError (msg : string)
| OSError (msg : string)
| YAMLError (msg : string)
| ValueError (msg : string)
| RecursionError.

Inductive result (A : Type) :=
| Ok (a : A)
| Raise (e : exn).
Arguments Ok {A} a.
Arguments Raise {A} e.

(** Sequencing of steps that may raise. *)
Definition and_then {A B} (r : result A) (k : A → result B) : result B :=
  match r with
  | Ok a => k a
  | Raise e => Raise e
  end.

(** ** Concrete handler classes *)

(** The subclasses of [IReader]: csv.py and excel.py. *)
Inductive reader_class := CSVReader | ExcelReader.

(** The subclasses of [IWriter]: the repository defines none. *)
Inductive writer_class := .

#[global] Instance reader_class_eq_dec : EqDecision reader_class.
Proof. solve_decision. Defined.

(** ** Observable calls *)

Inductive event :=
| NewReader (c : reader_class) (cfg : pyval)
| ReaderRead (c : reader_class) (path : pyval) (kw : kwargs)
| NewWriter (c : writer_class) (cfg : pyval)
| WriterWrite (c : writer_class) (df path : pyval) (kw : kwargs)
| PdReadCsv (path : pyval) (kw : kwargs)
| PdReadExcel (io : pyval) (kw : kwargs)
| OpenFile (path : pyval)
| CloseFile (path : pyval)
| DotenvValues (path : pyval).

(** ** The interpreter monad *)

Record state := mkState {
  self_dict : gmap string pyval;   (* [self.__dict__] *)
  log : list event
}.

Definition Py (A : Type) : Type := state -> result A * state.

Definition ret {A} (a : A) : Py A := fun σ => (Ok a, σ).

Definition raise {A} (e : exn) : Py A := fun σ => (Raise e, σ).

Definition bind {A B} (m : Py A) (k : A -> Py B) : Py B :=
  fun σ =>
    match m σ with
    | (Ok a, σ') => k a σ'
    | (Raise e, σ') => (Raise e, σ')
    end.

Definition lift {A} (r : result A) : Py A := fun σ => (r, σ).

Definition emit (e : event) : Py unit :=
  fun σ => (Ok tt, mkState (self_dict σ) (log σ ++ [e])).

Definition getattr_self (name : string) : Py pyval :=
  fun σ =>
    match self_dict σ !! name with
    | Some v => (Ok v, σ)
    | None => (Raise (AttributeError name), σ)
    end.

Definition setattr_self (name : string) (v : pyval) : Py unit :=
  fun σ => (Ok tt, mkState (<[name := v]> (self_dict σ)) (log σ)).

Declare Scope py_scope.
Delimit Scope py_scope with py.
Notation "x <- m ;; k" := (bind m (fun x => k))
  (at level 100, m at next level, right associativity) : py_scope.
Notation "m ;;; k" := (bind m (fun _ => k))
  (at level 100, right associativity) : py_scope.
Notation "x <-? r ;; k" := (and_then r (fun x => k))
  (at level 100, r at next level, right associativity) : py_scope.
Open Scope py_scope.

(** [d[k]] on a dictionary with string keys. *)
Definition subscript {V} (d : gmap string V) (k : string) : result V :=
  match d !! k with
  | Some v => Ok v
  | None => Raise (KeyError (SStr k))
  end.

(** ** Strings *)

Definition is_upper (c : ascii) : bool :=
  let n := nat_of_ascii c in (65 <=? n)%nat && (n <=? 90)%nat.

Definition is_lower (c : ascii) : bool :=
  let n := nat_of_ascii c in (97 <=? n)%nat && (n <=? 122)%nat.

Definition lower_char (c : ascii) : ascii :=
  if is_upper c then ascii_of_nat (nat_of_ascii c + 32) else c.

Definition upper_char (c : ascii) : ascii :=
  if is_lower c then ascii_of_nat (nat_of_ascii c - 32) else c.

(** [str.lower] *)
Fixpoint lower (s : string) : string :=
  match s with
  | EmptyString => EmptyString
  | String c t => String (lower_char c) (lower t)
  end.

(** [str.upper] *)
Fixpoint upper (s : string) : string :=
  match s with
  | EmptyString => EmptyString
  | String c t => String (upper_char c) (upper t)
  end.

(** [str.capitalize]: first character upper-cased, the rest lower-cased. *)
Definition capitalize (s : string) : string :=
  match s with
  | EmptyString => EmptyString
  | String c t => String (upper_char c) (lower t)
  end.

(** ** The libraries the code calls *)

Record Libs := mkLibs {
  (* pandas.read_csv(path, **kwargs) *)
  pd_read_csv : pyval -> kwargs -> result DataFrame;
  (* pandas.read_excel(io, **kwargs) *)
  pd_read_excel : pyval -> kwargs -> result pyval;
  (* pandas.read_excel(io, sheet_name=None, index_col=c): every sheet, as a
     dict from sheet name to table, in workbook order *)
  pd_read_excel_sheets : pyval -> pyval -> result (list (string * DataFrame));
  (* open(path, 'r'): the text of the file *)
  open_r : pyval -> result string;
  (* yaml.safe_load(stream) *)
  safe_load : string -> result pyval;
  (* dotenv.dotenv_values(dotenv_path) *)
  dotenv_values : pyval -> result (list (string * option string))
}.

(** ** backend/src/data/reader *)

Module Reader.
Section WithLibs.
Variable L : Libs.

(** An instance of a concrete [IReader] subclass. *)
Record instance := mkInstance { cls : reader_class; cfg : pyval }.

(** interface.py, [IReader.__init__]: [self.cfg = cfg]. *)
Definition IReader_init (c : reader_class) (cfg : pyval) : Py instance :=
  emit (NewReader c cfg) ;;;
  ret (mkInstance c cfg).

(** csv.py, [CSVReader.read]: the table is bound to a local and the body
    ends, so the method returns [None]. *)
Definition CSVReader_read (self : instance) (path : pyval) (kw : kwargs)
  : Py pyval :=
  emit (PdReadCsv path kw) ;;;
  df <- lift (pd_read_csv L path kw) ;;
  ret PNone.

(** excel.py, [ExcelReader.read]. *)
Definition ExcelReader_read (self : instance) (path : pyval) (kw : kwargs)
  : Py pyval :=
  emit (PdReadExcel path kw) ;;;
  df <- lift (pd_read_excel L path kw) ;;
  ret PNone.

(** Method resolution of [obj.read]. *)
Definition call_read (self : instance) (path : pyval) (kw : kwargs)
  : Py pyval :=
  emit (ReaderRead (cls self) path kw) ;;;
  match cls self with
  | CSVReader => CSVReader_read self path kw
  | ExcelReader => ExcelReader_read self path kw
  end.

(** factory.py, [DataReaderFactory.__init__]. *)
Definition init (cfg : pyval) : Py unit := setattr_self "cfg" cfg.

Definition reader_dict : gmap string reader_class :=
  <["excel" := ExcelReader]> (<["csv" := CSVReader]> ∅).

(** factory.py, [DataReaderFactory.read]:
    [reader_dict[source.lower()](cfg = self.cfg).read(path, **kwargs)]. *)
Definition read (source : string) (path : pyval) (kw : kwargs) : Py pyval :=
  c <- lift (subscript reader_dict (lower source)) ;;
  cfg <- getattr_self "cfg" ;;
  obj <- IReader_init c cfg ;;
  call_read obj path kw.

End WithLibs.
End Reader.

(** ** backend/src/data/writer *)

Module Writer.

Record instance := mkInstance { cls : writer_class; cfg : pyval }.

(** interface.py, [IWriter.__init__]. *)
Definition IWriter_init (c : writer_class) (cfg : pyval) : Py instance :=
  emit (NewWriter c cfg) ;;;
  ret (mkInstance c cfg).

(** Method resolution of [obj.write]: there is no concrete class whose
    method could run. *)
Definition call_write (self : instance) (df path : pyval) (kw : kwargs)
  : Py pyval :=
  emit (WriterWrite (cls self) df path kw) ;;;
  match cls self with end.

(** factory.py, [DataWriterFactory.__init__]. *)
Definition init (cfg : pyval) : Py unit := setattr_self "cfg" cfg.

Definition writers_dict : gmap string writer_class := ∅.

(** factory.py, [DataWriterFactory.write]. *)
Definition write (source : string) (df path : pyval) (kw : kwargs)
  : Py pyval :=
  c <- lift (subscript writers_dict (lower source)) ;;
  cfg <- getattr_self "cfg" ;;
  obj <- IWriter_init c cfg ;;
  call_write obj df path kw.

End Writer.

(** ** config/name_space.py *)

Module Config.

(** *** Name resolution *)

(** The names bound in the module namespace by the statements of
    name_space.py: the imports of lines 1-5 and the class of line 7. *)
Definition name_space_globals : gset string :=
  {[ "SimpleNamespace"; "os"; "dotenv_values"; "safe_load"; "Template";
     "ConfigFactory" ]}.

(** The builtins the class refers to. *)
Definition builtins : gset string := {[ "open"; "isinstance"; "dict" ]}.

(** Loading a global name: module namespace first, builtins next,
    [NameError] otherwise. *)
Definition load_name (G : gset string) (name : string) : Py unit :=
  if decide (name ∈ G ∪ builtins) then ret tt else raise (NameError name).

(** *** Strings: [str.split()] and [str.join] *)

(** ASCII whitespace, as [str.isspace] has it. *)
Definition is_space (c : ascii) : bool :=
  let n := nat_of_ascii c in
  ((9 <=? n)%nat && (n <=? 13)%nat) || ((28 <=? n)%nat && (n <=? 32)%nat).

Fixpoint split_from (s : string) (word : option string) : list string :=
  match s with
  | EmptyString => match word with Some w => [w] | None => [] end
  | String c t =>
      if is_space c then
        match word with
        | Some w => w :: split_from t None
        | None => split_from t None
        end
      else
        split_from t (Some (match word with
                            | Some w => (w ++ String c EmptyString)%string
                            | None => String c EmptyString
                            end))
  end.

(** [s.split()]: the maximal runs of non-whitespace characters. *)
Definition split (s : string) : list string := split_from s None.

(** [sep.join(words)] *)
Definition join (sep : string) (words : list string) : string :=
  String.concat sep words.

(** *** Dictionaries *)

(** Python compares keys with [==]: [True] and [1] are one key. *)
Definition key_norm (k : scalar) : scalar :=
  match k with
  | SBool b => SInt (Z.b2z b)
  | _ => k
  end.

Definition same_key (k k' : scalar) : bool :=
  bool_decide (key_norm k = key_norm k').

(** [d[k] = v] *)
Fixpoint dict_set {V} (d : list (scalar * V)) (k : scalar) (v : V)
  : list (scalar * V) :=
  match d with
  | [] => [(k, v)]
  | (k', v') :: rest =>
      if same_key k' k then (k', v) :: rest else (k', v') :: dict_set rest k v
  end.

Fixpoint dict_get {V} (d : list (scalar * V)) (k : scalar) : option V :=
  match d with
  | [] => None
  | (k', v') :: rest => if same_key k' k then Some v' else dict_get rest k
  end.

(** [obj[key]] for a string literal [key].  Only a dict can be indexed by a
    string; a list, a string, [None] and the like raise [TypeError]. *)
Definition getitem (obj : pyval) (key : string) : result pyval :=
  match obj with
  | PDict items =>
      match dict_get items (SStr key) with
      | Some v => Ok v
      | None => Raise (KeyError (SStr key))
      end
  | _ => Raise (TypeError "object is not subscriptable by str")
  end.

(** *** Tables *)

(** A column, or a selection of one: index label and value per row. *)
Definition Series := list (scalar * scalar).

Fixpoint index_of (col : string) (cols : list string) : option nat :=
  match cols with
  | [] => None
  | c :: rest => if decide (c = col) then Some 0%nat else S <$> index_of col rest
  end.

(** [df[col]] *)
Definition df_getitem (df : DataFrame) (col : string) : result Series :=
  match index_of col (df_columns df) with
  | Some i => Ok (map (fun row => (row.1, nth i row.2 SNone)) (df_rows df))
  | None => Raise (KeyError (SStr col))
  end.

(** [a | b] on two columns of one table: defined on boolean cells. *)
Fixpoint series_or (a b : Series) : result (list bool) :=
  match a, b with
  | [], [] => Ok []
  | (_, SBool x) :: a', (_, SBool y) :: b' =>
      match series_or a' b' with
      | Ok m => Ok ((x || y) :: m)
      | Raise e => Raise e
      end
  | _, _ => Raise (TypeError "unsupported operand type(s) for |")
  end.

Fixpoint select (s : Series) (mask : list bool) : Series :=
  match s, mask with
  | row :: s', true :: mask' => row :: select s' mask'
  | _ :: s', false :: mask' => select s' mask'
  | _, _ => []
  end.

(** [df.loc[mask, col]] *)
Definition df_loc (df : DataFrame) (mask : list bool) (col : string)
  : result Series :=
  match df_getitem df col with
  | Ok s => Ok (select s mask)
  | Raise e => Raise e
  end.

(** [series.to_dict()] *)
Definition to_dict (s : Series) : list (scalar * pyval) :=
  foldl (fun d row => dict_set d row.1 (PScalar row.2)) [] s.

(** *** The class *)

(** [SimpleNamespace] called with the items of [d] as keywords: the names
    must be strings. *)
Fixpoint keywords (d : list (scalar * pyval)) : result (list (string * pyval)) :=
  match d with
  | [] => Ok []
  | (SStr name, v) :: rest =>
      match keywords rest with
      | Ok kw => Ok ((name, v) :: kw)
      | Raise e => Raise e
      end
  | _ :: _ => Raise (TypeError "keywords must be strings")
  end.

Definition SimpleNamespace (d : list (scalar * pyval)) : result pyval :=
  match keywords d with
  | Ok kw => Ok (PNamespace kw)
  | Raise e => Raise e
  end.

(** Lines 11-15, [ConfigFactory.dict_to_namespace].  Its global names,
    [isinstance], [dict] and [SimpleNamespace], are bound by the builtins
    and by line 1.  This is the method where the interpreter's recursion
    limit is out of reach; [dict_to_namespace_within] has the limit. *)
Fixpoint dict_to_namespace (map_obj : pyval) : result pyval :=
  match map_obj with
  | PDict items =>
      let fix comprehension (items : list (scalar * pyval))
        : result (list (scalar * pyval)) :=
        match items with
        | [] => Ok []
        | (key, value) :: rest =>
            match dict_to_namespace value with
            | Ok value' =>
                match comprehension rest with
                | Ok rest' => Ok ((key, value') :: rest')
                | Raise e => Raise e
                end
            | Raise e => Raise e
            end
        end in
      match comprehension items with
      | Ok d => SimpleNamespace d
      | Raise e => Raise e
      end
  | _ => Ok map_obj
  end.

(** Lines 8-9, [ConfigFactory.__init__]. *)
Definition init (yaml_path : pyval) : Py unit :=
  setattr_self "yaml_path" yaml_path.

(** Lines 25-26, the body of the loop over the sheets, on the two local
    dictionaries. *)
Definition sheet_step (acc : list (scalar * pyval) * list (scalar * pyval))
    (sheet_name : string) (schema_df : DataFrame)
  : result (list (scalar * pyval) * list (scalar * pyval)) :=
  let (schema_dict, col_dict) := acc in
  let schema_dict :=
    dict_set schema_dict (SStr (join "_" (map upper (split sheet_name))))
             (PDataFrame schema_df) in
  derived <-? df_getitem schema_df "IS Derived?" ;;
  is_read <-? df_getitem schema_df "Is Read?" ;;
  mask <-? series_or derived is_read ;;
  names <-? df_loc schema_df mask "Name" ;;
  Ok (schema_dict,
      dict_set col_dict (SStr (join "_" (map capitalize (split sheet_name))))
               (PDict (to_dict names))).

(** Lines 24-26, the loop. *)
Fixpoint for_sheets (sheets : list (string * DataFrame))
    (acc : list (scalar * pyval) * list (scalar * pyval))
  : result (list (scalar * pyval) * list (scalar * pyval)) :=
  match sheets with
  | [] => Ok acc
  | (sheet_name, schema_df) :: rest =>
      acc' <-? sheet_step acc sheet_name schema_df ;;
      for_sheets rest acc'
  end.

Definition schema_xlsx : pyval := PStr "data/config/schema.xlsx".

Definition secret_dict (kv : list (string * option string)) : pyval :=
  PDict (map (fun p => (SStr p.1,
                        match p.2 with Some v => PStr v | None => PNone end))
             kv).

Section WithLibs.
Variable L : Libs.

(** [with open(path, 'r') as f: body]: the file is closed on both exits. *)
Definition with_open {A} (path : pyval) (body : string -> Py A) : Py A :=
  fun σ =>
    match (emit (OpenFile path) ;;; lift (open_r L path)) σ with
    | (Ok f, σ1) =>
        let (r, σ2) := body f σ1 in (r, (emit (CloseFile path) σ2).2)
    | (Raise e, σ1) => (Raise e, σ1)
    end.

(** Lines 17-35, [ConfigFactory.initialize], run in a module namespace
    that binds the names of [name_space_globals] and those of [extra].  A
    binding of [pd], where there is one, is pandas, as in csv.py and
    excel.py. *)
Definition initialize_in (extra : gset string) : Py pyval :=
  let G := name_space_globals ∪ extra in
  load_name G "open" ;;;
  yaml_path <- getattr_self "yaml_path" ;;
  yaml_dict <- with_open yaml_path (fun yaml_file =>
                 load_name G "safe_load" ;;;
                 lift (safe_load L yaml_file)) ;;
  let col_dict := [] in
  let schema_dict := [] in
  load_name G "pd" ;;;
  emit (PdReadExcel schema_xlsx
          [("sheet_name", PNone); ("index_col", PStr "Variable")]) ;;;
  sheets <- lift (pd_read_excel_sheets L schema_xlsx (PStr "Variable")) ;;
  dicts <- lift (for_sheets sheets (schema_dict, col_dict)) ;;
  let (schema_dict, col_dict) := dicts : _ * _ in
  path <- lift (getitem yaml_dict "Path") ;;
  load_name G "dotenv_values" ;;;
  path' <- lift (getitem yaml_dict "Path") ;;
  env <- lift (getitem path' "ENV") ;;
  emit (DotenvValues env) ;;;
  secret <- lift (dotenv_values L env) ;;
  param <- lift (getitem yaml_dict "Param") ;;
  let ns_dict :=
    PDict [ (SStr "Schema", PDict schema_dict);
            (SStr "Col", PDict col_dict);
            (SStr "Path", path);
            (SStr "Secret", secret_dict secret);
            (SStr "Param", param) ] in
  lift (dict_to_namespace ns_dict).

(** The method in the module as it is written. *)
Definition initialize : Py pyval := initialize_in ∅.

End WithLibs.
End Config.

(** ** Definitions used to state the properties *)

(** The pandas call a handler class makes. *)
Definition pandas_call (c : reader_class) (path : pyval) (kw : kwargs) : event :=
  match c with
  | CSVReader => PdReadCsv path kw
  | ExcelReader => PdReadExcel path kw
  end.

(** A computation that only reads [self.__dict__]: from a given instance
    dictionary it returns one result, leaves the dictionary as it was, and
    appends one sequence of events to the log, whatever the log held. *)
Definition stable {A} (m : Py A) : Prop :=
  ∀ d, ∃ r evs, ∀ l, m (mkState d l) = (r, mkState d (l ++ evs)).

(** The conversion as the specification words it: a key-value map becomes
    an object with one attribute per key, holding the converted value; any
    other value is a leaf and stays as it is. *)
#[warnings="-register-all"]
Inductive converted : pyval → pyval → Prop :=
| converted_leaf v :
    (∀ items, v ≠ PDict items) → converted v v
| converted_map items attrs :
    Forall2 (λ kv av, kv.1 = SStr av.1 ∧ converted kv.2 av.2) items attrs →
    converted (PDict items) (PNamespace attrs).

Definition is_str (k : scalar) : bool :=
  match k with SStr _ => true | _ => false end.

(** Every map of the value, the value itself or a map nested as the value
    of a map, has only strings for keys. *)
Fixpoint str_keyed (v : pyval) : bool :=
  match v with
  | PDict items => forallb (λ kv, is_str kv.1 && str_keyed kv.2) items
  | _ => true
  end.

(** The dict comprehension of [dict_to_namespace], for any function on the
    values. *)
Fixpoint map_values (f : pyval → result pyval) (items : list (scalar * pyval))
  : result (list (scalar * pyval)) :=
  match items with
  | [] => Ok []
  | (key, value) :: rest =>
      match f value with
      | Ok value' =>
          match map_values f rest with
          | Ok rest' => Ok ((key, value') :: rest')
          | Raise e => Raise e
          end
      | Raise e => Raise e
      end
  end.

Definition keywords_error : exn := TypeError "keywords must be strings".

(** What [dict_to_namespace] does with a value, by the keys of its maps. *)
Definition conversion_outcome (v : pyval) : Prop :=
  (str_keyed v = true →
   ∃ ns, Config.dict_to_namespace v = Ok ns ∧ converted v ns) ∧
  (str_keyed v = false → Config.dict_to_namespace v = Raise keywords_error).

(** [yaml_dict['Path']['ENV']] *)
Definition path_env (yaml_dict : pyval) : result pyval :=
  path <-? Config.getitem yaml_dict "Path" ;;
  Config.getitem path "ENV".

(** The columns line 26 takes from every sheet. *)
Definition required_columns : list string := ["IS Derived?"; "Is Read?"; "Name"].

(** The ways the inputs of [initialize] can be at fault, for a factory
    whose YAML path is [yaml_path]. *)
Inductive failure_mode (L : Libs) (yaml_path : pyval) : Prop :=
| missing_yaml e :
    open_r L yaml_path = Raise e →
    failure_mode L yaml_path
| malformed_yaml text e :
    open_r L yaml_path = Ok text →
    safe_load L text = Raise e →
    failure_mode L yaml_path
| bad_spreadsheet e :
    pd_read_excel_sheets L Config.schema_xlsx (PStr "Variable") = Raise e →
    failure_mode L yaml_path
| sheet_lacks_column sheets name df col :
    pd_read_excel_sheets L Config.schema_xlsx (PStr "Variable") = Ok sheets →
    (name, df) ∈ sheets →
    col ∈ required_columns →
    col ∉ df_columns df →
    failure_mode L yaml_path
| missing_path_env text yaml_dict e :
    open_r L yaml_path = Ok text →
    safe_load L text = Ok yaml_dict →
    path_env yaml_dict = Raise e →
    failure_mode L yaml_path
| unreadable_secrets text yaml_dict env e :
    open_r L yaml_path = Ok text →
    safe_load L text = Ok yaml_dict →
    path_env yaml_dict = Ok env →
    dotenv_values L env = Raise e →
    failure_mode L yaml_path.

(** A small world to run the code in. *)
Module Sample.

Definition accounts : DataFrame :=
  mkDataFrame ["Name"; "IS Derived?"; "Is Read?"]
    [ (SStr "acc_id", [SStr "Account Id"; SBool false; SBool true]);
      (SStr "acc_tmp", [SStr "Scratch"; SBool false; SBool false]) ].

Definition yaml_tree : pyval :=
  PDict [ (SStr "Path", PDict [(SStr "ENV", PStr "secrets.env")]);
          (SStr "Param", PDict [(SStr "retries", PScalar (SInt 3))]) ].

Definition yaml_text : string :=
  "{Path: {ENV: secrets.env}, Param: {retries: 3}}".

Definition libs : Libs :=
  mkLibs
    (fun _ _ => Ok accounts)
    (fun _ _ => Ok (PDataFrame accounts))
    (fun _ _ => Ok [("Account Name", accounts)])
    (fun _ => Ok yaml_text)
    (fun _ => Ok yaml_tree)
    (fun _ => Ok [("TOKEN", Some "abc")]).

(** No YAML file at the configured path. *)
Definition libs_no_yaml : Libs :=
  mkLibs (pd_read_csv libs) (pd_read_excel libs) (pd_read_excel_sheets libs)
    (fun _ => Raise (OSError "No such file or directory"))
    (safe_load libs) (dotenv_values libs).

(** Factory objects, as [__init__] leaves them. *)
Definition reader_factory : state :=
  (Reader.init PNone (mkState ∅ [])).2.
Definition config_factory : state :=
  (Config.init (PStr "config.yaml") (mkState ∅ [])).2.

End Sample.

(** ** Definitions for the further properties *)

(** Libraries that fail in one place. *)
Module Faults.

(** pandas cannot parse the CSV file. *)
Definition libs_bad_csv : Libs :=
  mkLibs (fun _ _ => Raise (ValueError "Error tokenizing data"))
    (pd_read_excel Sample.libs) (pd_read_excel_sheets Sample.libs)
    (open_r Sample.libs) (safe_load Sample.libs) (dotenv_values Sample.libs).

(** The YAML file is there and is not YAML. *)
Definition libs_bad_yaml : Libs :=
  mkLibs (pd_read_csv Sample.libs) (pd_read_excel Sample.libs)
    (pd_read_excel_sheets Sample.libs) (open_r Sample.libs)
    (fun _ => Raise (YAMLError "mapping values are not allowed here"))
    (dotenv_values Sample.libs).

(** A sheet that has lost its Name column. *)
Definition nameless : DataFrame :=
  mkDataFrame ["IS Derived?"; "Is Read?"]
    [ (SStr "acc_id", [SBool false; SBool true]) ].

(** A sheet whose rows are labelled by numbers. *)
Definition numbered : DataFrame :=
  mkDataFrame ["Name"; "IS Derived?"; "Is Read?"]
    [ (SInt 1, [SStr "Account Id"; SBool true; SBool false]) ].

End Faults.

(** The keys of lines 25 and 26. *)
Definition schema_key (sheet_name : string) : string :=
  Config.join "_" (map upper (Config.split sheet_name)).

Definition col_key (sheet_name : string) : string :=
  Config.join "_" (map capitalize (Config.split sheet_name)).

(** The table of the last sheet whose Schema key is [k]. *)
Fixpoint last_sheet (k : string) (sheets : list (string * DataFrame))
  : option DataFrame :=
  match sheets with
  | [] => None
  | (sheet_name, df) :: rest =>
      match last_sheet k rest with
      | Some df' => Some df'
      | None => if decide (schema_key sheet_name = k) then Some df else None
      end
  end.

(** The cell of a row under a column label. *)
Definition cell (df : DataFrame) (col : string) (cells : list scalar)
  : option scalar :=
  (λ i, nth i cells SNone) <$> Config.index_of col (df_columns df).

(** A row one of whose two flags is true. *)
Definition flagged (df : DataFrame) (row : scalar * list scalar) : bool :=
  match cell df "IS Derived?" row.2, cell df "Is Read?" row.2 with
  | Some (SBool x), Some (SBool y) => x || y
  | _, _ => false
  end.

(** Row by row: the label and the Name of every flagged row. *)
Definition flagged_names (df : DataFrame) : Config.Series :=
  omap (λ row, if flagged df row
               then (λ name, (row.1, name)) <$> cell df "Name" row.2
               else None)
       (df_rows df).

(** Both flags of every row are booleans. *)
Definition boolean_flags (df : DataFrame) : bool :=
  forallb (λ row, match cell df "IS Derived?" row.2, cell df "Is Read?" row.2 with
                  | Some (SBool _), Some (SBool _) => true
                  | _, _ => false
                  end)
          (df_rows df).

(** The first of the columns that line 26 reads which the sheet lacks. *)
Definition first_missing (df : DataFrame) : option string :=
  List.find (λ col, bool_decide (col ∉ df_columns df)) required_columns.

(** *** Calling the constructor, and the script at the end of the module *)

(** Binding the arguments of a call to the one parameter that follows
    [self]. *)
Definition bind_param (name : string) (args : list pyval) (kw : kwargs)
  : result pyval :=
  match args, kw with
  | [], [] => Raise (TypeError "missing 1 required positional argument")
  | [v], [] => Ok v
  | [], [(k, v)] =>
      if decide (k = name) then Ok v
      else Raise (TypeError "got an unexpected keyword argument")
  | [], _ :: _ :: _ => Raise (TypeError "got an unexpected keyword argument")
  | [_], _ :: _ => Raise (TypeError "got multiple values or an unexpected keyword")
  | _ :: _ :: _, _ => Raise (TypeError "takes 2 positional arguments")
  end.

(** [ConfigFactory(...)]: a new object, initialised by lines 8-9. *)
Definition ConfigFactory (args : list pyval) (kw : kwargs) : result state :=
  v <-? bind_param "yaml_path" args kw ;;
  Ok (Config.init v (mkState ∅ [])).2.

Inductive script_event :=
| Chdir (path : pyval)
| Printed (text : string).

(** Lines 37-41, executed with [__name__] bound to [name]; [chdir] is
    [os.chdir].  The result is the value of the module variable [cfg]. *)
Definition run_module (chdir : pyval → result unit) (name : string)
  : result (option state) * list script_event :=
  if decide (name = "__main__") then
    match chdir (PStr "..") with
    | Ok _ =>
        match ConfigFactory [] [] with
        | Ok cfg => (Ok (Some cfg), [Chdir (PStr ".."); Printed "End"])
        | Raise e => (Raise e, [Chdir (PStr "..")])
        end
    | Raise e => (Raise e, [Chdir (PStr "..")])
    end
  else (Ok None, []).

(** ** Definitions for the recursion limit, attribute access and ASCII text *)

(** Lines 11-15 under the interpreter's recursion limit.  [frames] is the
    number of frames the interpreter still allows.  A call of the method
    takes one; the dict comprehension of line 13 takes one more where the
    interpreter runs a comprehension in a frame of its own ([comp], so
    before Python 3.12) and none where it runs it inline.  Where no frame
    is left the call raises [RecursionError]; with frames enough the
    function is [Config.dict_to_namespace]. *)
Fixpoint dict_to_namespace_within (comp : bool) (frames : nat)
    (map_obj : pyval) : result pyval :=
  match frames with
  | O => Raise RecursionError
  | S frames' =>
      match map_obj with
      | PDict items =>
          if comp then
            match frames' with
            | O => Raise RecursionError
            | S frames'' =>
                match map_values (dict_to_namespace_within comp frames'') items with
                | Ok d => Config.SimpleNamespace d
                | Raise e => Raise e
                end
            end
          else
            match map_values (dict_to_namespace_within comp frames') items with
            | Ok d => Config.SimpleNamespace d
            | Raise e => Raise e
            end
      | _ => Ok map_obj
      end
  end.

(** The frames a map takes besides those of its values. *)
Definition map_frames (comp : bool) : nat := if comp then 2 else 1.

(** The frames a value takes: one for a leaf, and for a map its own and
    as many more as the deepest of its values takes. *)
Fixpoint frames_needed (comp : bool) (v : pyval) : nat :=
  match v with
  | PDict items =>
      map_frames comp +
      foldr (λ kv m, Nat.max (frames_needed comp kv.2) m) O items
  | _ => 1
  end.

(** A map nested [n] deep under the key "a", around [None]. *)
Fixpoint nest (n : nat) : pyval :=
  match n with
  | O => PNone
  | S n' => PDict [(SStr "a", nest n')]
  end.

(** A map is left somewhere in the value, inside a list or an object
    included. *)
Fixpoint has_map (v : pyval) : bool :=
  match v with
  | PDict _ => true
  | PList l => existsb has_map l
  | PNamespace attrs => existsb (λ a, has_map a.2) attrs
  | _ => false
  end.

(** [obj.name] on an object. *)
Fixpoint find_attr (attrs : list (string * pyval)) (name : string)
  : option pyval :=
  match attrs with
  | [] => None
  | (a, v) :: rest => if decide (a = name) then Some v else find_attr rest name
  end.

Definition ns_getattr (obj : pyval) (name : string) : option pyval :=
  match obj with
  | PNamespace attrs => find_attr attrs name
  | _ => None
  end.

(** The object made of the pairs of a secrets file. *)
Definition secret_namespace (kv : list (string * option string)) : pyval :=
  PNamespace
    (map (λ p, (p.1, match p.2 with Some v => PStr v | None => PNone end)) kv).

(** A string of ASCII characters.  On such strings [lower], [upper],
    [capitalize] and [Config.split] are the methods of [str]; a character
    above 127 they leave alone, where [str] follows Unicode. *)
Definition ascii_only (s : string) : bool :=
  forallb (λ c, (nat_of_ascii c <? 128)%nat) (list_ascii_of_string s).

(** * Properties *)

(** ** Strings *)

Example lower_mixed_case : lower "CsV" = "csv" ∧ lower "EXCEL" = "excel".
Proof. split; reflexivity. Qed.

Lemma lower_idempotent s : lower (lower s) = lower s.
Proof.
  induction s as [|c t IH]; simpl; [done|].
  rewrite IH. f_equal.
  unfold lower_char at 1. destruct (is_upper (lower_char c)) eqn:E; [|done].
  exfalso. revert E. unfold lower_char.
  destruct (is_upper c) eqn:U; [|congruence].
  revert U. unfold is_upper.
  destruct c as [[] [] [] [] [] [] [] []]; vm_compute; congruence.
Qed.

(** ** The interpreter monad *)

Lemma bind_ok {A B} (m : Py A) (k : A → Py B) σ a σ' :
  m σ = (Ok a, σ') → bind m k σ = k a σ'.
Proof. unfold bind. by intros ->. Qed.

Lemma bind_raise {A B} (m : Py A) (k : A → Py B) σ e σ' :
  m σ = (Raise e, σ') → bind m k σ = (Raise e, σ').
Proof. unfold bind. by intros ->. Qed.

(** ** Reader factory *)

Section ReaderFactory.
Variable L : Libs.

Lemma reader_dict_lookup k :
  Reader.reader_dict !! k =
    if decide (k = "excel") then Some ExcelReader
    else if decide (k = "csv") then Some CSVReader
    else None.
Proof.
  unfold Reader.reader_dict.
  rewrite lookup_insert. case_decide; subst.
  - by rewrite decide_True.
  - rewrite decide_False by done.
    rewrite lookup_insert. case_decide; subst.
    + by rewrite decide_True.
    + rewrite decide_False by done. apply lookup_empty.
Qed.

(** The format names the factory accepts are exactly csv and excel. *)
Lemma reader_dict_supported k c :
  Reader.reader_dict !! k = Some c ↔
  (k = "csv" ∧ c = CSVReader) ∨ (k = "excel" ∧ c = ExcelReader).
Proof.
  rewrite reader_dict_lookup.
  destruct (decide (k = "excel")) as [->|Hx].
  - split; [intros [= <-]; by right | intros [[? _]|[_ ->]]; done].
  - destruct (decide (k = "csv")) as [->|Hc].
    + split; [intros [= <-]; by left | intros [[_ ->]|[? _]]; done].
    + split; [done | intros [[? _]|[? _]]; done].
Qed.

(** After [__init__] the factory holds the configuration object. *)
Lemma init_stores_cfg cfg σ :
  Reader.init cfg σ = (Ok tt, mkState (<["cfg" := cfg]> (self_dict σ)) (log σ)) ∧
  self_dict (Reader.init cfg σ).2 !! "cfg" = Some cfg.
Proof. split; [done|]. simpl. apply lookup_insert_eq. Qed.

(** What a call with a supported name does, step by step. *)
Lemma read_supported σ source path kw cfg c :
  (lower source = "csv" ∧ c = CSVReader) ∨
  (lower source = "excel" ∧ c = ExcelReader) →
  self_dict σ !! "cfg" = Some cfg →
  Reader.read L source path kw σ =
    (match c with
     | CSVReader =>
         match pd_read_csv L path kw with Ok _ => Ok PNone | Raise e => Raise e end
     | ExcelReader =>
         match pd_read_excel L path kw with Ok _ => Ok PNone | Raise e => Raise e end
     end,
     mkState (self_dict σ)
       (log σ ++ [NewReader c cfg; ReaderRead c path kw; pandas_call c path kw])).
Proof.
  intros Hfmt Hcfg.
  apply reader_dict_supported in Hfmt.
  unfold Reader.read, subscript, lift, bind, getattr_self. rewrite Hfmt, Hcfg.
  unfold Reader.IReader_init, Reader.call_read, bind, emit, ret. simpl.
  destruct c; simpl.
  - unfold Reader.CSVReader_read, bind, emit, lift, ret; simpl.
    rewrite <- !app_assoc; simpl. by destruct (pd_read_csv L path kw).
  - unfold Reader.ExcelReader_read, bind, emit, lift, ret; simpl.
    rewrite <- !app_assoc; simpl. by destruct (pd_read_excel L path kw).
Qed.

(** C2: for a format name whose lowercase form is csv or excel, the factory
    resolves to CSVReader or ExcelReader respectively, instantiates it with
    the configuration object stored in the factory, and calls the read
    method of that instance with the given path and options, which are
    handed on unchanged to pandas; the factory object itself is not
    modified. *)
Theorem read_dispatches σ source path kw cfg c :
  (lower source = "csv" ∧ c = CSVReader) ∨
  (lower source = "excel" ∧ c = ExcelReader) →
  self_dict σ !! "cfg" = Some cfg →
  let σ' := (Reader.read L source path kw σ).2 in
  log σ' = log σ ++ [NewReader c cfg; ReaderRead c path kw; pandas_call c path kw]
  ∧ self_dict σ' = self_dict σ.
Proof.
  intros Hfmt Hcfg. by rewrite (read_supported σ source path kw cfg c).
Qed.

(** Whatever table pandas loads, the factory hands back [None]. *)
Lemma read_returns_None σ source path kw cfg :
  lower source = "csv" ∨ lower source = "excel" →
  self_dict σ !! "cfg" = Some cfg →
  (∀ e, pd_read_csv L path kw ≠ Raise e) →
  (∀ e, pd_read_excel L path kw ≠ Raise e) →
  (Reader.read L source path kw σ).1 = Ok PNone.
Proof.
  intros [H|H] Hcfg Hcsv Hxl.
  - rewrite (read_supported σ source path kw cfg CSVReader) by auto. simpl.
    destruct (pd_read_csv L path kw) as [|e] eqn:E; [done|]. by destruct (Hcsv e).
  - rewrite (read_supported σ source path kw cfg ExcelReader) by auto. simpl.
    destruct (pd_read_excel L path kw) as [|e] eqn:E; [done|]. by destruct (Hxl e).
Qed.

(** C3: a format name whose lowercase form is neither csv nor excel makes
    the call raise KeyError on that lowercase name, and the call leaves the
    state as it found it: the log gains no event, so no handler was
    instantiated and no file was read. *)
Theorem read_unknown_format σ source path kw :
  lower source ≠ "csv" → lower source ≠ "excel" →
  Reader.read L source path kw σ = (Raise (KeyError (SStr (lower source))), σ).
Proof.
  intros Hcsv Hxl.
  apply bind_raise. unfold lift, subscript.
  rewrite reader_dict_lookup, !decide_False by done. done.
Qed.

End ReaderFactory.

Lemma read_dispatches_witness :
  let σ' := (Reader.read Sample.libs "CsV" (PStr "in.csv")
               [("sep", PStr ";")] Sample.reader_factory).2 in
  log σ' =
    [NewReader CSVReader PNone;
     ReaderRead CSVReader (PStr "in.csv") [("sep", PStr ";")];
     PdReadCsv (PStr "in.csv") [("sep", PStr ";")]]
  ∧ self_dict σ' = self_dict Sample.reader_factory.
Proof.
  apply (read_dispatches Sample.libs Sample.reader_factory "CsV" (PStr "in.csv")
           [("sep", PStr ";")] PNone CSVReader).
  - left. split; reflexivity.
  - reflexivity.
Defined.

Lemma read_unknown_format_witness :
  Reader.read Sample.libs "Parquet" (PStr "in.parquet") [] Sample.reader_factory
  = (Raise (KeyError (SStr "parquet")), Sample.reader_factory).
Proof.
  apply (read_unknown_format Sample.libs Sample.reader_factory "Parquet"
           (PStr "in.parquet") []); vm_compute; congruence.
Defined.

(** C1: on a readable CSV file the factory returns [None], not the table
    that pandas loaded from it. *)
Theorem read_discards_table :
  pd_read_csv Sample.libs (PStr "in.csv") [] = Ok Sample.accounts ∧
  (Reader.read Sample.libs "csv" (PStr "in.csv") [] Sample.reader_factory).1
    = Ok PNone ∧
  (Reader.read Sample.libs "csv" (PStr "in.csv") [] Sample.reader_factory).1
    ≠ Ok (PDataFrame Sample.accounts).
Proof.
  split; [reflexivity|].
  rewrite (read_returns_None Sample.libs Sample.reader_factory "csv"
             (PStr "in.csv") [] PNone); try done.
  by left.
Qed.

(** ** Writer factory *)

(** C4: whatever the format name, table, path and options, the call raises
    KeyError on the lowercase name, because the dispatch table has no
    entry, and leaves the state as it found it: nothing is instantiated,
    written or read. *)
Theorem write_always_KeyError σ source df path kw :
  Writer.write source df path kw σ = (Raise (KeyError (SStr (lower source))), σ).
Proof.
  apply bind_raise. unfold lift, subscript, Writer.writers_dict.
  by rewrite lookup_empty.
Qed.

(** ** Config factory: [dict_to_namespace] *)

(** Induction over values, reaching into lists, maps and objects. *)
Lemma pyval_nested_ind (P : pyval → Prop) :
  (∀ c, P (PScalar c)) →
  (∀ l, Forall P l → P (PList l)) →
  (∀ items, Forall (λ kv, P kv.2) items → P (PDict items)) →
  (∀ df, P (PDataFrame df)) →
  (∀ attrs, Forall (λ kv, P kv.2) attrs → P (PNamespace attrs)) →
  ∀ v, P v.
Proof.
  intros Hs Hl Hd Hf Hn.
  fix IH 1. intros [c|l|items|df|attrs].
  - apply Hs.
  - apply Hl. induction l as [|x l IHl]; constructor; [apply IH | exact IHl].
  - apply Hd. induction items as [|[k x] items IHi]; constructor;
      [apply IH | exact IHi].
  - apply Hf.
  - apply Hn. induction attrs as [|[k x] attrs IHa]; constructor;
      [apply IH | exact IHa].
Qed.

Lemma dict_to_namespace_dict items :
  Config.dict_to_namespace (PDict items) =
    match map_values Config.dict_to_namespace items with
    | Ok d => Config.SimpleNamespace d
    | Raise e => Raise e
    end.
Proof.
  simpl.
  match goal with
  | |- match ?F items with _ => _ end = _ =>
      assert (Hfix : ∀ l, F l = map_values Config.dict_to_namespace l)
  end.
  { induction l as [|[k x] l IHl]; simpl; [done|].
    destruct (Config.dict_to_namespace x); [|done]. by rewrite IHl. }
  by rewrite Hfix.
Qed.

Lemma dict_to_namespace_leaf v :
  (∀ items, v ≠ PDict items) → Config.dict_to_namespace v = Ok v.
Proof. destruct v; try done. intros H. by destruct (H items). Qed.

Lemma keywords_spec d :
  (forallb (λ kv, is_str kv.1) d = true →
   ∃ attrs, Config.keywords d = Ok attrs ∧
            Forall2 (λ kv av, kv.1 = SStr av.1 ∧ kv.2 = av.2) d attrs) ∧
  (forallb (λ kv, is_str kv.1) d = false →
   Config.keywords d = Raise keywords_error).
Proof.
  induction d as [|[k v] d [IHt IHf]]; simpl.
  - split; [|done]. intros _. exists []. by split; [|constructor].
  - destruct k as [| | |name]; simpl; try (split; [done|by intros _]).
    split.
    + intros Hd. destruct (IHt Hd) as (attrs & -> & Hall).
      exists ((name, v) :: attrs). split; [done|]. by constructor.
    + intros Hd. by rewrite (IHf Hd).
Qed.

Lemma map_values_spec items :
  Forall (λ kv, conversion_outcome kv.2) items →
  (forallb (λ kv, str_keyed kv.2) items = true →
   ∃ d, map_values Config.dict_to_namespace items = Ok d ∧
        Forall2 (λ kv kv', kv'.1 = kv.1 ∧ converted kv.2 kv'.2) items d) ∧
  (forallb (λ kv, str_keyed kv.2) items = false →
   map_values Config.dict_to_namespace items = Raise keywords_error).
Proof.
  induction 1 as [|[k x] items [Hxt Hxf] _ [IHt IHf]]; simpl in *.
  - split; [|done]. intros _. exists []. by split; [|constructor].
  - destruct (str_keyed x) eqn:Hx; simpl.
    + destruct (Hxt eq_refl) as (x' & -> & Hconv). split.
      * intros Hi. destruct (IHt Hi) as (d & -> & Hall).
        exists ((k, x') :: d). split; [done|]. by constructor.
      * intros Hi. by rewrite (IHf Hi).
    + split; [done|]. intros _. by rewrite (Hxf eq_refl).
Qed.

Lemma dict_to_namespace_spec v : conversion_outcome v.
Proof.
  induction v as [c|l _|items IH|df|attrs _] using pyval_nested_ind;
    try (split; [intros _; eexists; split; [reflexivity|by constructor]|done]).
  destruct (map_values_spec items IH) as [Ht Hf].
  unfold conversion_outcome. rewrite dict_to_namespace_dict. simpl str_keyed.
  destruct (forallb (λ kv, str_keyed kv.2) items) eqn:Hvals.
  - destruct (Ht eq_refl) as (d & -> & Hall).
    assert (Hkeys : forallb (λ kv, is_str kv.1) d =
                    forallb (λ kv, is_str kv.1) items).
    { clear -Hall. induction Hall as [|[k x] [k' x'] ? ? [Hk _] _ IHa]; [done|].
      simpl in *. by rewrite Hk, IHa. }
    assert (Hsplit : forallb (λ kv, is_str kv.1 && str_keyed kv.2) items =
                     forallb (λ kv, is_str kv.1) items).
    { clear -Hvals. induction items as [|[k x] items IHi]; [done|].
      simpl in *. apply andb_true_iff in Hvals as [-> Hr].
      by rewrite andb_true_r, (IHi Hr). }
    rewrite Hsplit, <- Hkeys. unfold Config.SimpleNamespace.
    destruct (keywords_spec d) as [Hkt Hkf]. split.
    + intros Hk. destruct (Hkt Hk) as (attrs & -> & Hattrs).
      exists (PNamespace attrs). split; [done|]. constructor.
      clear -Hall Hattrs. revert attrs Hattrs.
      induction Hall as [|[k x] [k' x'] ? ? [Hk Hc] _ IHa];
        intros attrs Hattrs; inversion Hattrs as [|? [a y] ? ? [Ha Hy]]; subst;
        constructor; simpl in *; subst; auto.
    + intros Hk. by rewrite (Hkf Hk).
  - rewrite (Hf eq_refl). split; [|done].
    intros Hall. exfalso. clear -Hvals Hall.
    induction items as [|[k x] items IHi]; [done|]. simpl in *.
    apply andb_true_iff in Hall as [Hkx Hr].
    apply andb_true_iff in Hkx as [_ Hx]. rewrite Hx in Hvals. auto.
Qed.

(** Where the recursion limit is out of reach: when every map of the
    input, at the top or
    nested as the value of a map, has only string keys, the call returns
    the input with each of these maps turned into an object whose
    attributes are the keys, and every other value (a list included, with
    whatever it holds) left as it is; when some such map has a key that is
    not a string, the call raises TypeError. *)
Theorem dict_to_namespace_converts v :
  (str_keyed v = true →
   ∃ ns, Config.dict_to_namespace v = Ok ns ∧ converted v ns) ∧
  (str_keyed v = false → Config.dict_to_namespace v = Raise keywords_error).
Proof. apply dict_to_namespace_spec. Qed.

Lemma dict_to_namespace_converts_witness :
  ∃ ns, Config.dict_to_namespace Sample.yaml_tree = Ok ns
        ∧ converted Sample.yaml_tree ns.
Proof.
  apply (proj1 (dict_to_namespace_converts Sample.yaml_tree)). reflexivity.
Defined.

(** A map with the key 1 is an input value, and the call raises TypeError
    on it instead of returning a converted object. *)
Lemma dict_to_namespace_int_key :
  Config.dict_to_namespace (PDict [(SInt 1, PStr "a")])
    = Raise (TypeError "keywords must be strings") ∧
  ¬ (∀ v, ∃ ns, Config.dict_to_namespace v = Ok ns ∧ converted v ns).
Proof.
  split; [reflexivity|].
  intros H. destruct (H (PDict [(SInt 1, PStr "a")])) as (ns & Hns & _).
  discriminate Hns.
Qed.

(** ** Config factory: [initialize] *)

(** *** Computations that only read the factory *)

Create HintDb stable.

Lemma stable_ret {A} (a : A) : stable (ret a).
Proof. intros d. exists (Ok a), []. intros l. by rewrite app_nil_r. Qed.

Lemma stable_raise {A} e : stable (@raise A e).
Proof. intros d. exists (Raise e), []. intros l. by rewrite app_nil_r. Qed.

Lemma stable_lift {A} (r : result A) : stable (lift r).
Proof. intros d. exists r, []. intros l. by rewrite app_nil_r. Qed.

Lemma stable_emit e : stable (emit e).
Proof. intros d. by exists (Ok tt), [e]. Qed.

Lemma stable_getattr_self name : stable (getattr_self name).
Proof.
  intros d. unfold getattr_self. simpl.
  destruct (d !! name) as [v|];
    [exists (Ok v), [] | exists (Raise (AttributeError name)), []];
    intros l; by rewrite app_nil_r.
Qed.

Lemma stable_bind {A B} (m : Py A) (k : A → Py B) :
  stable m → (∀ a, stable (k a)) → stable (bind m k).
Proof.
  intros Hm Hk d. destruct (Hm d) as ([a|e] & evs & Hr).
  - destruct (Hk a d) as (r' & evs' & Hr').
    exists r', (evs ++ evs'). intros l.
    unfold bind. by rewrite Hr, Hr', app_assoc.
  - exists (Raise e), evs. intros l. unfold bind. by rewrite Hr.
Qed.

Lemma stable_load_name G name : stable (Config.load_name G name).
Proof.
  unfold Config.load_name. case_decide; [apply stable_ret | apply stable_raise].
Qed.

Lemma stable_with_open {A} L path (body : string → Py A) :
  (∀ f, stable (body f)) → stable (Config.with_open L path body).
Proof.
  intros Hbody d. unfold Config.with_open, bind, emit, lift. simpl.
  destruct (open_r L path) as [f|e].
  - destruct (Hbody f d) as (r & evs & Hr).
    exists r, ([OpenFile path] ++ evs ++ [CloseFile path]). intros l.
    rewrite Hr. simpl. by rewrite <- !app_assoc.
  - by exists (Raise e), [OpenFile path].
Qed.

#[local] Hint Resolve stable_ret stable_raise stable_lift stable_emit
  stable_getattr_self stable_load_name : stable.

Lemma stable_initialize_in L extra : stable (Config.initialize_in L extra).
Proof.
  unfold Config.initialize_in.
  repeat first
    [ apply stable_with_open; intros ?
    | apply stable_bind; [|intros ?]
    | match goal with |- stable (let (_, _) := ?p in _) => destruct p end
    | solve [auto with stable] ].
Qed.

(** Running such a computation twice in a row. *)
Lemma stable_twice {A} (m : Py A) σ :
  stable m →
  ∃ r evs,
    m σ = (r, mkState (self_dict σ) (log σ ++ evs)) ∧
    m (m σ).2 = (r, mkState (self_dict σ) ((log σ ++ evs) ++ evs)).
Proof.
  intros Hm. destruct σ as [d l]. destruct (Hm d) as (r & evs & Hr).
  exists r, evs. simpl. rewrite Hr. simpl. by rewrite Hr.
Qed.

(** Two calls in a row on one factory, with the files unchanged, end in
    the same outcome (equal objects, or the same exception), each call
    repeats the same accesses to the files, and the factory object is the
    same before and after; this holds in whatever namespace the method
    runs. *)
Theorem initialize_idempotent L extra σ :
  let first := Config.initialize_in L extra σ in
  let second := Config.initialize_in L extra first.2 in
  second.1 = first.1 ∧
  self_dict first.2 = self_dict σ ∧ self_dict second.2 = self_dict σ ∧
  ∃ evs, log first.2 = log σ ++ evs ∧ log second.2 = log first.2 ++ evs.
Proof.
  destruct (stable_twice (Config.initialize_in L extra) σ
              (stable_initialize_in L extra)) as (r & evs & H1 & H2).
  simpl. rewrite H2, H1. simpl. eauto 6.
Qed.

(** *** The loop over the sheets, as designed *)

Example account_name_keys :
  Config.join "_" (map upper (Config.split "Account Name")) = "ACCOUNT_NAME" ∧
  Config.join "_" (map capitalize (Config.split "Account Name")) = "Account_Name" ∧
  Config.join "_" (map capitalize (Config.split "account  NAME ")) = "Account_Name".
Proof. repeat split; reflexivity. Qed.

Lemma same_key_refl k : Config.same_key k k = true.
Proof. unfold Config.same_key. by apply bool_decide_eq_true. Qed.

Lemma dict_get_set {V} (d : list (scalar * V)) k v :
  Config.dict_get (Config.dict_set d k v) k = Some v.
Proof.
  induction d as [|[k' v'] d IH]; simpl.
  - by rewrite same_key_refl.
  - destruct (Config.same_key k' k) eqn:E; simpl; by rewrite E.
Qed.

(** One round of the loop, when it succeeds, leaves the whole sheet in
    [schema_dict] under the upper-case key and, in [col_dict] under the
    capitalized key, the names of the rows selected by the two flags. *)
Lemma sheet_step_stores schema_dict col_dict sheet_name df schema_dict' col_dict' :
  Config.sheet_step (schema_dict, col_dict) sheet_name df
    = Ok (schema_dict', col_dict') →
  Config.dict_get schema_dict'
    (SStr (Config.join "_" (map upper (Config.split sheet_name))))
    = Some (PDataFrame df) ∧
  ∃ derived is_read mask names,
    Config.df_getitem df "IS Derived?" = Ok derived ∧
    Config.df_getitem df "Is Read?" = Ok is_read ∧
    Config.series_or derived is_read = Ok mask ∧
    Config.df_getitem df "Name" = Ok names ∧
    Config.dict_get col_dict'
      (SStr (Config.join "_" (map capitalize (Config.split sheet_name))))
      = Some (PDict (Config.to_dict (Config.select names mask))).
Proof.
  unfold Config.sheet_step, and_then, Config.df_loc.
  destruct (Config.df_getitem df "IS Derived?") as [derived|] eqn:E1;
    [|discriminate].
  destruct (Config.df_getitem df "Is Read?") as [is_read|] eqn:E2;
    [|discriminate].
  destruct (Config.series_or derived is_read) as [mask|] eqn:E3;
    [|discriminate].
  destruct (Config.df_getitem df "Name") as [names|] eqn:E4; [|discriminate].
  intros [= <- <-]. split; [apply dict_get_set|].
  exists derived, is_read, mask, names.
  repeat (split; [done|]). apply dict_get_set.
Qed.

(** The flags select a row exactly when one of them is true. *)
Example accounts_selection :
  Config.sheet_step ([], []) "Account Name" Sample.accounts
  = Ok ([(SStr "ACCOUNT_NAME", PDataFrame Sample.accounts)],
        [(SStr "Account_Name", PDict [(SStr "acc_id", PStr "Account Id")])]).
Proof. reflexivity. Qed.

(** *** What a successful call has gone through *)

Lemma bind_Ok_inv {A B} (m : Py A) (k : A → Py B) σ b :
  (bind m k σ).1 = Ok b → ∃ a σ', m σ = (Ok a, σ') ∧ (k a σ').1 = Ok b.
Proof.
  unfold bind. destruct (m σ) as [[a|e] σ']; [eauto | discriminate].
Qed.

Lemma lift_Ok_inv {A} (r : result A) σ a σ' :
  lift r σ = (Ok a, σ') → r = Ok a ∧ σ' = σ.
Proof. unfold lift. by intros [= -> ->]. Qed.

Lemma load_name_bound G name σ :
  name ∈ G ∪ Config.builtins → Config.load_name G name σ = (Ok tt, σ).
Proof. intros H. unfold Config.load_name. by rewrite decide_True. Qed.

Lemma load_name_unbound G name σ :
  name ∉ G ∪ Config.builtins →
  Config.load_name G name σ = (Raise (NameError name), σ).
Proof. intros H. unfold Config.load_name. by rewrite decide_False. Qed.

Lemma load_name_Ok_inv G name σ u σ' :
  Config.load_name G name σ = (Ok u, σ') →
  name ∈ G ∪ Config.builtins ∧ σ' = σ.
Proof.
  unfold Config.load_name. case_decide; [by intros [= _ ->] | discriminate].
Qed.

Lemma getattr_self_Ok_inv name σ v σ' :
  getattr_self name σ = (Ok v, σ') → self_dict σ !! name = Some v ∧ σ' = σ.
Proof.
  unfold getattr_self. destruct (self_dict σ !! name); [|discriminate].
  by intros [= -> ->].
Qed.

Lemma with_open_Ok_inv {A} L path (body : string → Py A) σ a σ' :
  Config.with_open L path body σ = (Ok a, σ') →
  ∃ f σ1, open_r L path = Ok f ∧ (body f σ1).1 = Ok a.
Proof.
  unfold Config.with_open, bind, emit, lift. simpl.
  destruct (open_r L path) as [f|e]; [|discriminate].
  intros H. exists f, (mkState (self_dict σ) (log σ ++ [OpenFile path])).
  split; [done|].
  destruct (body f _) as [r σ2]. by injection H as -> _.
Qed.

Lemma for_sheets_columns sheets acc dicts name df col :
  Config.for_sheets sheets acc = Ok dicts →
  (name, df) ∈ sheets → col ∈ required_columns → col ∈ df_columns df.
Proof.
  intros Hrun Hin Hcol.
  assert (Hidx : ∀ cols, Config.index_of col cols ≠ None → col ∈ cols).
  { induction cols as [|c cols IHc]; simpl; [done|].
    case_decide; subst; [left|].
    destruct (Config.index_of col cols); [right; by apply IHc | done]. }
  assert (Hget : ∀ s, Config.df_getitem df col = Ok s → col ∈ df_columns df).
  { unfold Config.df_getitem. intros s.
    destruct (Config.index_of col (df_columns df)) eqn:E; [|discriminate].
    intros _. apply Hidx. by rewrite E. }
  revert acc Hrun.
  induction sheets as [|[name' df'] sheets IHs]; intros acc Hrun.
  { by apply elem_of_nil in Hin. }
  simpl in Hrun.
  destruct (Config.sheet_step acc name' df') as [acc'|] eqn:Hstep; [|discriminate].
  apply elem_of_cons in Hin as [[= <- <-]|Hin]; [|by eapply IHs].
  clear -Hstep Hcol Hget. unfold Config.sheet_step in Hstep.
  destruct acc as [sd cd]. unfold and_then, Config.df_loc in Hstep.
  destruct (Config.df_getitem df "IS Derived?") eqn:E1; [|discriminate].
  destruct (Config.df_getitem df "Is Read?") eqn:E2; [|discriminate].
  destruct (Config.series_or _ _); [|discriminate].
  destruct (Config.df_getitem df "Name") eqn:E3; [|discriminate].
  unfold required_columns in Hcol.
  repeat (apply elem_of_cons in Hcol as [->|Hcol]; [by eauto|]).
  by apply elem_of_nil in Hcol.
Qed.

Section Initialize.
Variable L : Libs.

(** A call returns an object only after every step has succeeded. *)
Lemma initialize_in_Ok_inv extra σ ns :
  (Config.initialize_in L extra σ).1 = Ok ns →
  ∃ yaml_path text yaml_dict sheets schema_dict col_dict path env secret param,
    self_dict σ !! "yaml_path" = Some yaml_path ∧
    open_r L yaml_path = Ok text ∧
    safe_load L text = Ok yaml_dict ∧
    "pd" ∈ Config.name_space_globals ∪ extra ∪ Config.builtins ∧
    pd_read_excel_sheets L Config.schema_xlsx (PStr "Variable") = Ok sheets ∧
    Config.for_sheets sheets ([], []) = Ok (schema_dict, col_dict) ∧
    Config.getitem yaml_dict "Path" = Ok path ∧
    Config.getitem path "ENV" = Ok env ∧
    dotenv_values L env = Ok secret ∧
    Config.getitem yaml_dict "Param" = Ok param ∧
    Config.dict_to_namespace
      (PDict [ (SStr "Schema", PDict schema_dict);
               (SStr "Col", PDict col_dict);
               (SStr "Path", path);
               (SStr "Secret", Config.secret_dict secret);
               (SStr "Param", param) ]) = Ok ns.
Proof.
  unfold Config.initialize_in. intros H.
  apply bind_Ok_inv in H as (_ & σ1 & [_ ->]%load_name_Ok_inv & H).
  apply bind_Ok_inv in H as (yaml_path & σ2 & [Hattr ->]%getattr_self_Ok_inv & H).
  apply bind_Ok_inv in H as (yaml_dict & σ3 & Hyaml & H).
  apply with_open_Ok_inv in Hyaml as (text & σ4 & Hopen & Hyaml).
  apply bind_Ok_inv in Hyaml as (_ & σ5 & _ & Hyaml).
  destruct (lift (safe_load L text) σ5) as [r σ6] eqn:Hload.
  simpl in Hyaml. subst r. apply lift_Ok_inv in Hload as [Hload _].
  apply bind_Ok_inv in H as (_ & σ7 & [Hpd _]%load_name_Ok_inv & H).
  apply bind_Ok_inv in H as (_ & σ8 & _ & H).
  apply bind_Ok_inv in H as (sheets & σ9 & [Hsheets _]%lift_Ok_inv & H).
  apply bind_Ok_inv in H as ([schema_dict col_dict] & σ10 & [Hloop _]%lift_Ok_inv & H).
  apply bind_Ok_inv in H as (path & σ11 & [Hp _]%lift_Ok_inv & H).
  apply bind_Ok_inv in H as (_ & σ12 & _ & H).
  apply bind_Ok_inv in H as (path' & σ13 & [Hp' _]%lift_Ok_inv & H).
  apply bind_Ok_inv in H as (env & σ14 & [Henv _]%lift_Ok_inv & H).
  apply bind_Ok_inv in H as (_ & σ15 & _ & H).
  apply bind_Ok_inv in H as (secret & σ16 & [Hsecret _]%lift_Ok_inv & H).
  apply bind_Ok_inv in H as (param & σ17 & [Hparam _]%lift_Ok_inv & H).
  assert (path' = path) as -> by congruence.
  unfold lift in H. simpl in H.
  exists yaml_path, text, yaml_dict, sheets, schema_dict, col_dict, path, env,
    secret, param.
  repeat split; assumption.
Qed.

(** After the YAML file has been read, the method looks up [pd]. *)
Lemma initialize_in_after_yaml extra σ yaml_path text yaml_dict :
  self_dict σ !! "yaml_path" = Some yaml_path →
  open_r L yaml_path = Ok text →
  safe_load L text = Ok yaml_dict →
  "pd" ∉ Config.name_space_globals ∪ extra ∪ Config.builtins →
  Config.initialize_in L extra σ =
    (Raise (NameError "pd"),
     mkState (self_dict σ)
       (log σ ++ [OpenFile yaml_path; CloseFile yaml_path])).
Proof.
  intros Hattr Hopen Hload Hpd. unfold Config.initialize_in.
  rewrite (bind_ok _ _ σ tt σ)
    by (apply load_name_bound; unfold Config.builtins; set_solver).
  rewrite (bind_ok _ _ σ yaml_path σ)
    by (unfold getattr_self; by rewrite Hattr).
  rewrite (bind_ok _ _ σ yaml_dict
             (mkState (self_dict σ)
                (log σ ++ [OpenFile yaml_path; CloseFile yaml_path]))).
  - apply bind_raise. by apply load_name_unbound.
  - unfold Config.with_open, bind at 1, emit at 1, lift at 1. simpl.
    rewrite Hopen.
    rewrite (bind_ok _ _ _ tt _)
      by (apply load_name_bound; unfold Config.name_space_globals; set_solver).
    unfold lift, emit. simpl. by rewrite Hload, <- app_assoc.
Qed.

Lemma pd_unbound :
  "pd" ∉ Config.name_space_globals ∪ ∅ ∪ Config.builtins.
Proof.
  apply (bool_decide_eq_false_1 ("pd" ∈ _)). vm_compute. reflexivity.
Qed.

(** C5: in the module as written no call returns an object, and a call
    that has read and parsed the YAML file raises NameError on [pd], the
    name no statement of the module binds. *)
Theorem initialize_NameError σ :
  (∀ ns, (Config.initialize L σ).1 ≠ Ok ns) ∧
  (∀ yaml_path text yaml_dict,
     self_dict σ !! "yaml_path" = Some yaml_path →
     open_r L yaml_path = Ok text →
     safe_load L text = Ok yaml_dict →
     (Config.initialize L σ).1 = Raise (NameError "pd")).
Proof.
  split.
  - intros ns Hns. apply initialize_in_Ok_inv in Hns
      as (_&_&_&_&_&_&_&_&_&_&_&_&_& Hpd &_).
    by apply pd_unbound.
  - intros yaml_path text yaml_dict Hattr Hopen Hload. unfold Config.initialize.
    by rewrite (initialize_in_after_yaml ∅ σ yaml_path text yaml_dict)
      by auto using pd_unbound.
Qed.

(** C10: when the YAML file, the spreadsheet, the [Path.ENV] key or the
    secrets file is at fault, the call ends in an exception, so it returns
    no object, and the factory object holds what it held before the call;
    this holds in whatever namespace the method runs. *)
Theorem initialize_failure extra σ yaml_path :
  self_dict σ !! "yaml_path" = Some yaml_path →
  failure_mode L yaml_path →
  ∃ e, (Config.initialize_in L extra σ).1 = Raise e ∧
       self_dict (Config.initialize_in L extra σ).2 = self_dict σ.
Proof.
  intros Hattr Hfail.
  assert (Hself : self_dict (Config.initialize_in L extra σ).2 = self_dict σ).
  { destruct σ as [d l].
    destruct (stable_initialize_in L extra d) as (r & evs & Hr).
    by rewrite Hr. }
  destruct (Config.initialize_in L extra σ).1 as [ns|e] eqn:Hrun; [|by eauto].
  exfalso. apply initialize_in_Ok_inv in Hrun
    as (p & text & y & sheets & sd & cd & path & env & secret & param
        & Hp & Hopen & Hload & _ & Hsheets & Hloop & Hpath & Henv & Hsecret & _).
  assert (p = yaml_path) as -> by congruence.
  destruct Hfail as [e He | text' e Ho Hl | e He | sheets' name df col Hs Hin Hc Hn
                    | text' y' e Ho Hl He | text' y' env' e Ho Hl He Hd ].
  - congruence.
  - congruence.
  - congruence.
  - apply Hn. assert (sheets' = sheets) as -> by congruence.
    by eapply for_sheets_columns.
  - assert (y' = y) as -> by congruence.
    unfold path_env in He. rewrite Hpath in He. simpl in He. congruence.
  - assert (y' = y) as -> by congruence.
    unfold path_env in He. rewrite Hpath in He. simpl in He. congruence.
Qed.

(** The object a successful call returns: the five groups in order, where
    Path and Param are the converted YAML entries and Secret the converted
    key-value pairs of the file named by [Path.ENV]. *)
Lemma initialize_in_Ok_shape extra σ ns :
  (Config.initialize_in L extra σ).1 = Ok ns →
  ∃ yaml_path text yaml_dict path env kv param schema col path' secret' param',
    self_dict σ !! "yaml_path" = Some yaml_path ∧
    open_r L yaml_path = Ok text ∧
    safe_load L text = Ok yaml_dict ∧
    Config.getitem yaml_dict "Path" = Ok path ∧
    Config.getitem path "ENV" = Ok env ∧
    dotenv_values L env = Ok kv ∧
    Config.getitem yaml_dict "Param" = Ok param ∧
    Config.dict_to_namespace path = Ok path' ∧
    Config.dict_to_namespace (Config.secret_dict kv) = Ok secret' ∧
    Config.dict_to_namespace param = Ok param' ∧
    ns = PNamespace [ ("Schema", schema); ("Col", col); ("Path", path');
                      ("Secret", secret'); ("Param", param') ].
Proof.
  intros (yaml_path & text & yaml_dict & _ & sd & cd & path & env & kv & param
          & Hattr & Hopen & Hload & _ & _ & _ & Hpath & Henv & Hkv & Hparam & H)
    %initialize_in_Ok_inv.
  rewrite dict_to_namespace_dict in H. cbn [map_values] in H.
  destruct (Config.dict_to_namespace (PDict sd)) as [schema|]; [|discriminate].
  destruct (Config.dict_to_namespace (PDict cd)) as [col|]; [|discriminate].
  destruct (Config.dict_to_namespace path) as [path'|] eqn:E1; [|discriminate].
  destruct (Config.dict_to_namespace (Config.secret_dict kv)) as [secret'|] eqn:E2;
    [|discriminate].
  destruct (Config.dict_to_namespace param) as [param'|] eqn:E3; [|discriminate].
  injection H as <-.
  exists yaml_path, text, yaml_dict, path, env, kv, param, schema, col, path',
    secret', param'.
  repeat (split; [assumption|]). reflexivity.
Qed.

End Initialize.

Lemma initialize_NameError_witness :
  (Config.initialize Sample.libs Sample.config_factory).1
  = Raise (NameError "pd").
Proof.
  apply (proj2 (initialize_NameError Sample.libs Sample.config_factory)
           (PStr "config.yaml") Sample.yaml_text Sample.yaml_tree);
    reflexivity.
Defined.

Lemma initialize_failure_witness :
  ∃ e, (Config.initialize_in Sample.libs_no_yaml ∅ Sample.config_factory).1
       = Raise e ∧
       self_dict (Config.initialize_in Sample.libs_no_yaml ∅
                    Sample.config_factory).2
       = self_dict Sample.config_factory.
Proof.
  apply (initialize_failure Sample.libs_no_yaml ∅ Sample.config_factory
           (PStr "config.yaml")).
  - reflexivity.
  - apply (missing_yaml _ _ (OSError "No such file or directory")). reflexivity.
Defined.

(** With [pd] bound to pandas the sample world yields the object the
    specification describes. *)
Example initialize_with_pd_bound :
  (Config.initialize_in Sample.libs {["pd"]} Sample.config_factory).1 =
  Ok (PNamespace
        [ ("Schema", PNamespace [("ACCOUNT_NAME", PDataFrame Sample.accounts)]);
          ("Col", PNamespace
                    [("Account_Name",
                      PNamespace [("acc_id", PStr "Account Id")])]);
          ("Path", PNamespace [("ENV", PStr "secrets.env")]);
          ("Secret", PNamespace [("TOKEN", PStr "abc")]);
          ("Param", PNamespace [("retries", PScalar (SInt 3))]) ]).
Proof. vm_compute. reflexivity. Qed.

Lemma sample_initialize_log :
  log (Config.initialize Sample.libs Sample.config_factory).2
  = [OpenFile (PStr "config.yaml"); CloseFile (PStr "config.yaml")].
Proof. vm_compute. reflexivity. Qed.

(** C6: in the sample world, whose spreadsheet has the sheet "Account
    Name" with one flagged row, the call raises NameError after closing the
    YAML file: the spreadsheet is not read, and neither Schema nor Col is
    built. *)
Theorem initialize_reads_no_sheet :
  pd_read_excel_sheets Sample.libs Config.schema_xlsx (PStr "Variable")
    = Ok [("Account Name", Sample.accounts)] ∧
  (Config.initialize Sample.libs Sample.config_factory).1
    = Raise (NameError "pd") ∧
  log (Config.initialize Sample.libs Sample.config_factory).2
    = [OpenFile (PStr "config.yaml"); CloseFile (PStr "config.yaml")].
Proof.
  split; [reflexivity|]. split; [vm_compute; reflexivity|].
  apply sample_initialize_log.
Qed.

(** In the sample world, whose YAML defines Path.ENV as "secrets.env"
    and a Param block, the call raises NameError: no object exposing Path,
    Param or Secret is returned, and the secrets file is not read. *)
Theorem initialize_returns_no_namespace :
  path_env Sample.yaml_tree = Ok (PStr "secrets.env") ∧
  (∃ param, Config.getitem Sample.yaml_tree "Param" = Ok param) ∧
  (Config.initialize Sample.libs Sample.config_factory).1
    = Raise (NameError "pd") ∧
  DotenvValues (PStr "secrets.env")
    ∉ log (Config.initialize Sample.libs Sample.config_factory).2.
Proof.
  split; [reflexivity|]. split; [eexists; reflexivity|].
  split; [vm_compute; reflexivity|].
  rewrite sample_initialize_log.
  intros H. repeat (apply elem_of_cons in H as [H|H]; [discriminate|]).
  by apply elem_of_nil in H.
Qed.

(** * Further properties *)

(** ** Reader factory *)

(** X1: when pandas raises on a file of a supported format, the factory
    raises that same exception: nothing is caught on the way, the handler
    has been instantiated and the factory object is not modified. *)
Theorem read_propagates_error L σ source path kw cfg c e :
  (lower source = "csv" ∧ c = CSVReader ∧ pd_read_csv L path kw = Raise e) ∨
  (lower source = "excel" ∧ c = ExcelReader ∧ pd_read_excel L path kw = Raise e) →
  self_dict σ !! "cfg" = Some cfg →
  Reader.read L source path kw σ =
    (Raise e,
     mkState (self_dict σ)
       (log σ ++ [NewReader c cfg; ReaderRead c path kw; pandas_call c path kw])).
Proof.
  intros [(Hs & -> & Hp)|(Hs & -> & Hp)] Hcfg.
  - rewrite (read_supported L σ source path kw cfg CSVReader) by auto.
    by rewrite Hp.
  - rewrite (read_supported L σ source path kw cfg ExcelReader) by auto.
    by rewrite Hp.
Qed.

Lemma read_propagates_error_witness :
  Reader.read Faults.libs_bad_csv "CSV" (PStr "in.csv") [] Sample.reader_factory
  = (Raise (ValueError "Error tokenizing data"),
     mkState (self_dict Sample.reader_factory)
       (log Sample.reader_factory ++
        [NewReader CSVReader PNone; ReaderRead CSVReader (PStr "in.csv") [];
         pandas_call CSVReader (PStr "in.csv") []])).
Proof.
  apply (read_propagates_error Faults.libs_bad_csv Sample.reader_factory "CSV"
           (PStr "in.csv") [] PNone CSVReader
           (ValueError "Error tokenizing data")).
  - left. repeat split; reflexivity.
  - reflexivity.
Defined.

(** X2: a call returns normally only for a format name whose lowercase form
    is csv or excel, and the value it returns is then [None], whatever
    pandas loaded. *)
Theorem read_returns_only_None L σ source path kw v :
  (Reader.read L source path kw σ).1 = Ok v →
  v = PNone ∧ (lower source = "csv" ∨ lower source = "excel").
Proof.
  intros H.
  destruct (decide (lower source = "csv")) as [Hc|Hc];
    [|destruct (decide (lower source = "excel")) as [Hx|Hx]].
  - destruct (self_dict σ !! "cfg") as [cfg|] eqn:Hcfg.
    + rewrite (read_supported L σ source path kw cfg CSVReader) in H by auto.
      simpl in H. destruct (pd_read_csv L path kw); [|discriminate].
      injection H as <-. auto.
    + revert H. unfold Reader.read, bind, lift, subscript, getattr_self.
      rewrite reader_dict_lookup, Hc, Hcfg. simpl. discriminate.
  - destruct (self_dict σ !! "cfg") as [cfg|] eqn:Hcfg.
    + rewrite (read_supported L σ source path kw cfg ExcelReader) in H by auto.
      simpl in H. destruct (pd_read_excel L path kw); [|discriminate].
      injection H as <-. auto.
    + revert H. unfold Reader.read, bind, lift, subscript, getattr_self.
      rewrite reader_dict_lookup, Hx, Hcfg. simpl. discriminate.
  - unfold Reader.read in H.
    erewrite bind_raise in H; [discriminate|].
    unfold lift, subscript.
    by rewrite reader_dict_lookup, !decide_False by done.
Qed.

Lemma read_returns_only_None_witness :
  PNone = PNone ∧ (lower "Excel" = "csv" ∨ lower "Excel" = "excel").
Proof.
  apply (read_returns_only_None Sample.libs Sample.reader_factory "Excel"
           (PStr "book.xlsx") [("sheet_name", PStr "Q1")] PNone).
  reflexivity.
Defined.

(** X3: a factory built with a configuration object hands that very object
    to the handler of each call, and every call instantiates a handler of
    its own: two calls in a row leave two instantiations in the log. *)
Theorem read_instantiates_per_call L σ cfg source1 path1 kw1 c1 source2 path2 kw2 c2 :
  (lower source1 = "csv" ∧ c1 = CSVReader) ∨
  (lower source1 = "excel" ∧ c1 = ExcelReader) →
  (lower source2 = "csv" ∧ c2 = CSVReader) ∨
  (lower source2 = "excel" ∧ c2 = ExcelReader) →
  let built := (Reader.init cfg σ).2 in
  let after1 := (Reader.read L source1 path1 kw1 built).2 in
  let after2 := (Reader.read L source2 path2 kw2 after1).2 in
  log after2 =
    log σ ++ [NewReader c1 cfg; ReaderRead c1 path1 kw1; pandas_call c1 path1 kw1;
              NewReader c2 cfg; ReaderRead c2 path2 kw2; pandas_call c2 path2 kw2]
  ∧ self_dict after2 = <["cfg" := cfg]> (self_dict σ).
Proof.
  intros H1 H2. simpl.
  rewrite (read_supported L _ source1 path1 kw1 cfg c1)
    by (auto; simpl; apply lookup_insert_eq).
  simpl.
  rewrite (read_supported L _ source2 path2 kw2 cfg c2)
    by (auto; simpl; apply lookup_insert_eq).
  simpl. by rewrite <- app_assoc.
Qed.

Lemma read_instantiates_per_call_witness :
  let built := (Reader.init (PStr "shared") (mkState ∅ [])).2 in
  let after1 := (Reader.read Sample.libs "csv" (PStr "a.csv") [] built).2 in
  let after2 := (Reader.read Sample.libs "EXCEL" (PStr "b.xlsx") [] after1).2 in
  log after2 =
    [] ++ [NewReader CSVReader (PStr "shared");
           ReaderRead CSVReader (PStr "a.csv") [];
           pandas_call CSVReader (PStr "a.csv") [];
           NewReader ExcelReader (PStr "shared");
           ReaderRead ExcelReader (PStr "b.xlsx") [];
           pandas_call ExcelReader (PStr "b.xlsx") []]
  ∧ self_dict after2 = <["cfg" := PStr "shared"]> ∅.
Proof.
  apply (read_instantiates_per_call Sample.libs (mkState ∅ []) (PStr "shared")
           "csv" (PStr "a.csv") [] CSVReader
           "EXCEL" (PStr "b.xlsx") [] ExcelReader).
  - left. split; reflexivity.
  - right. split; reflexivity.
Defined.


(** ** Config factory: conversion *)

(** X4: converting twice is converting once: what the call returns is
    returned unchanged by a second call. *)
Theorem dict_to_namespace_idempotent v ns :
  Config.dict_to_namespace v = Ok ns → Config.dict_to_namespace ns = Ok ns.
Proof.
  destruct v as [c|l|items|df|attrs]; try by intros [= <-].
  rewrite dict_to_namespace_dict.
  destruct (map_values Config.dict_to_namespace items) as [d|]; [|discriminate].
  unfold Config.SimpleNamespace.
  destruct (Config.keywords d) as [kw|]; [|discriminate].
  by intros [= <-].
Qed.

Lemma dict_to_namespace_idempotent_witness :
  Config.dict_to_namespace
    (PNamespace [("Path", PNamespace [("ENV", PStr "secrets.env")]);
                 ("Param", PNamespace [("retries", PScalar (SInt 3))])])
  = Ok (PNamespace [("Path", PNamespace [("ENV", PStr "secrets.env")]);
                    ("Param", PNamespace [("retries", PScalar (SInt 3))])]).
Proof.
  apply (dict_to_namespace_idempotent Sample.yaml_tree). reflexivity.
Defined.

(** X5: the pairs read from the secrets file always convert: every key
    becomes an attribute, in file order, holding its string, or [None] for
    a key that has no value. *)
Theorem secrets_always_convert kv :
  Config.dict_to_namespace (Config.secret_dict kv) =
    Ok (PNamespace
          (map (λ p, (p.1, match p.2 with Some v => PStr v | None => PNone end))
               kv)).
Proof.
  unfold Config.secret_dict. rewrite dict_to_namespace_dict.
  assert (Hvals : ∀ l : list (string * option string),
    map_values Config.dict_to_namespace
      (map (λ p, (SStr p.1, match p.2 with Some v => PStr v | None => PNone end)) l)
    = Ok (map (λ p, (SStr p.1, match p.2 with Some v => PStr v | None => PNone end)) l)).
  { induction l as [|[k [v|]] l IHl]; simpl; [done|by rewrite IHl..]. }
  rewrite Hvals. unfold Config.SimpleNamespace.
  assert (Hkw : ∀ l : list (string * option string),
    Config.keywords
      (map (λ p, (SStr p.1, match p.2 with Some v => PStr v | None => PNone end)) l)
    = Ok (map (λ p, (p.1, match p.2 with Some v => PStr v | None => PNone end)) l)).
  { induction l as [|[k o] l IHl]; simpl; [done|by rewrite IHl]. }
  by rewrite Hkw.
Qed.

(** ** Config factory: the keys of a sheet *)

Lemma upper_char_idempotent c : upper_char (upper_char c) = upper_char c.
Proof. destruct c as [[] [] [] [] [] [] [] []]; reflexivity. Qed.

Lemma upper_lower_char c : upper_char (lower_char c) = upper_char c.
Proof. destruct c as [[] [] [] [] [] [] [] []]; reflexivity. Qed.

Lemma upper_lower s : upper (lower s) = upper s.
Proof. induction s as [|c t IH]; simpl; [done|]. by rewrite IH, upper_lower_char. Qed.

Lemma upper_capitalize w : upper (capitalize w) = upper w.
Proof.
  destruct w as [|c t]; simpl; [done|].
  by rewrite upper_char_idempotent, upper_lower.
Qed.

Lemma upper_app a b : upper (a ++ b)%string = (upper a ++ upper b)%string.
Proof. induction a as [|c a IH]; simpl; [done|]. by rewrite IH. Qed.

Lemma upper_join ws : upper (Config.join "_" ws) = Config.join "_" (map upper ws).
Proof.
  unfold Config.join. induction ws as [|w ws IH]; simpl; [done|].
  destruct ws as [|w' ws]; simpl in *; [done|].
  by rewrite !upper_app, IH.
Qed.

Lemma schema_key_upper sheet_name :
  schema_key sheet_name = upper (col_key sheet_name).
Proof.
  unfold schema_key, col_key. rewrite upper_join, map_map. f_equal.
  apply map_ext. intros w. by rewrite upper_capitalize.
Qed.

(** ** Config factory: the loop over the sheets *)

Lemma same_key_str a b : Config.same_key (SStr a) (SStr b) = bool_decide (a = b).
Proof.
  unfold Config.same_key. simpl.
  apply bool_decide_ext. split; [by intros [= ->] | by intros ->].
Qed.

Lemma same_key_trans_l k1 k2 k :
  Config.same_key k1 k2 = true → Config.same_key k1 k = Config.same_key k2 k.
Proof.
  unfold Config.same_key. intros H%bool_decide_eq_true.
  apply bool_decide_ext. by rewrite H.
Qed.

(** Reading a dictionary after an assignment. *)
Lemma dict_get_set_cases {V} (d : list (scalar * V)) k1 v k :
  Config.dict_get (Config.dict_set d k1 v) k =
    if Config.same_key k1 k then Some v else Config.dict_get d k.
Proof.
  induction d as [|[k' v'] d IH]; simpl; [done|].
  destruct (Config.same_key k' k1) eqn:E1; simpl.
  - rewrite (same_key_trans_l k' k1 k E1). by destruct (Config.same_key k1 k).
  - rewrite IH. destruct (Config.same_key k' k) eqn:E2; [|done].
    destruct (Config.same_key k1 k) eqn:E3; [|done].
    exfalso. revert E1 E2 E3. unfold Config.same_key.
    intros H1%bool_decide_eq_false H2%bool_decide_eq_true H3%bool_decide_eq_true.
    congruence.
Qed.

Lemma sheet_step_schema sd cd sheet_name df sd' cd' :
  Config.sheet_step (sd, cd) sheet_name df = Ok (sd', cd') →
  sd' = Config.dict_set sd (SStr (schema_key sheet_name)) (PDataFrame df).
Proof.
  unfold Config.sheet_step, and_then, Config.df_loc.
  destruct (Config.df_getitem df "IS Derived?"); [|discriminate].
  destruct (Config.df_getitem df "Is Read?"); [|discriminate].
  destruct (Config.series_or _ _); [|discriminate].
  destruct (Config.df_getitem df "Name"); [|discriminate].
  by intros [= <- _].
Qed.

Lemma for_sheets_schema sheets sd cd sd' cd' k :
  Config.for_sheets sheets (sd, cd) = Ok (sd', cd') →
  Config.dict_get sd' (SStr k) =
    match last_sheet k sheets with
    | Some df => Some (PDataFrame df)
    | None => Config.dict_get sd (SStr k)
    end.
Proof.
  revert sd cd.
  induction sheets as [|[name df] sheets IH]; intros sd cd;
    cbn [Config.for_sheets last_sheet].
  - by intros [= <- _].
  - destruct (Config.sheet_step (sd, cd) name df) as [[sd1 cd1]|] eqn:Hstep;
      cbn [and_then]; [|discriminate].
    intros Hrest. rewrite (IH _ _ Hrest).
    destruct (last_sheet k sheets); [done|].
    rewrite (sheet_step_schema _ _ _ _ _ _ Hstep), dict_get_set_cases.
    rewrite same_key_str.
    destruct (decide (schema_key name = k)) as [Heq|Hne];
      [by rewrite bool_decide_eq_true_2 | by rewrite bool_decide_eq_false_2].
Qed.

(** X7: when the sheet names are made of ASCII characters, [schema_dict]
    holds after the loop, under each key, the table of the last sheet whose
    name gives that key, and nothing under any other key: of two sheets
    whose names differ only in case or spacing, the later one replaces the
    earlier. *)
Theorem for_sheets_last_sheet_wins sheets schema_dict col_dict k :
  Forall (λ sheet, ascii_only sheet.1 = true) sheets →
  Config.for_sheets sheets ([], []) = Ok (schema_dict, col_dict) →
  Config.dict_get schema_dict (SStr k) = PDataFrame <$> last_sheet k sheets.
Proof.
  intros _ H. rewrite (for_sheets_schema _ _ _ _ _ k H).
  by destruct (last_sheet k sheets).
Qed.

Lemma for_sheets_last_sheet_wins_witness :
  Config.dict_get [(SStr "ACCOUNT_NAME", PDataFrame Sample.accounts)]
    (SStr "ACCOUNT_NAME")
  = PDataFrame <$>
      last_sheet "ACCOUNT_NAME"
        [("account   name", Faults.numbered); ("Account Name", Sample.accounts)].
Proof.
  apply (for_sheets_last_sheet_wins
           [("account   name", Faults.numbered); ("Account Name", Sample.accounts)]
           _ [(SStr "Account_Name", PDict [(SStr "acc_id", PStr "Account Id")])]).
  - repeat constructor.
  - reflexivity.
Defined.

Lemma index_of_None col cols : Config.index_of col cols = None ↔ col ∉ cols.
Proof.
  induction cols as [|c cols IH]; simpl.
  - split; [intros _; apply not_elem_of_nil | done].
  - rewrite not_elem_of_cons.
    destruct (decide (c = col)) as [->|Hne].
    + split; [done | by intros [? _]].
    + destruct (Config.index_of col cols); simpl.
      * split; [done|]. intros [_ Hin]. by apply IH in Hin.
      * split; [|done]. intros _. split; [done|]. by apply IH.
Qed.

Lemma df_getitem_cell df col :
  match cell df col [] with
  | Some _ =>
      Config.df_getitem df col =
        Ok (map (λ row, (row.1, default SNone (cell df col row.2))) (df_rows df))
  | None => Config.df_getitem df col = Raise (KeyError (SStr col)) ∧ col ∉ df_columns df
  end.
Proof.
  unfold cell, Config.df_getitem.
  destruct (Config.index_of col (df_columns df)) as [i|] eqn:E; simpl; [done|].
  split; [done|]. by apply index_of_None.
Qed.

Lemma df_getitem_Ok df col s :
  Config.df_getitem df col = Ok s →
  s = map (λ row, (row.1, default SNone (cell df col row.2))) (df_rows df) ∧
  ∀ cells, is_Some (cell df col cells).
Proof.
  intros H. pose proof (df_getitem_cell df col) as Hc. revert Hc H.
  unfold cell. destruct (Config.index_of col (df_columns df)); simpl.
  - intros -> [= <-]. eauto.
  - intros [-> _]. discriminate.
Qed.

Lemma df_getitem_missing df col :
  col ∉ df_columns df → Config.df_getitem df col = Raise (KeyError (SStr col)).
Proof.
  intros H%index_of_None. unfold Config.df_getitem. by rewrite H.
Qed.

Lemma df_getitem_present df col :
  col ∈ df_columns df → ∃ s, Config.df_getitem df col = Ok s.
Proof.
  intros H. unfold Config.df_getitem.
  destruct (Config.index_of col (df_columns df)) eqn:E; [eauto|].
  by apply index_of_None in E.
Qed.

(** The mask of line 26, row by row. *)
Lemma series_or_rows (f g : scalar * list scalar → scalar) rows :
  Config.series_or (map (λ row, (row.1, f row)) rows)
                   (map (λ row, (row.1, g row)) rows) =
    if forallb (λ row, match f row, g row with
                       | SBool _, SBool _ => true
                       | _, _ => false
                       end) rows
    then Ok (map (λ row, match f row, g row with
                         | SBool x, SBool y => x || y
                         | _, _ => false
                         end) rows)
    else Raise (TypeError "unsupported operand type(s) for |").
Proof.
  induction rows as [|row rows IH]; simpl; [done|].
  destruct (f row) as [| x | |]; try done;
    destruct (g row) as [| y | |]; try done.
  rewrite IH. by destruct (forallb _ rows).
Qed.

Lemma select_rows {A} (h : A → scalar * scalar) (fl : A → bool) (rows : list A) :
  Config.select (map h rows) (map fl rows) =
    omap (λ row, if fl row then Some (h row) else None) rows.
Proof.
  induction rows as [|row rows IH]; simpl; [done|].
  destruct (fl row); simpl; by rewrite IH.
Qed.

(** What a round of the loop computes, with the selection read row by
    row. *)
Lemma sheet_step_rows sd cd sheet_name df :
  Config.sheet_step (sd, cd) sheet_name df =
    match first_missing df with
    | Some col =>
        if bool_decide (col = "Name") && negb (boolean_flags df)
        then Raise (TypeError "unsupported operand type(s) for |")
        else Raise (KeyError (SStr col))
    | None =>
        if boolean_flags df
        then Ok (Config.dict_set sd (SStr (schema_key sheet_name)) (PDataFrame df),
                 Config.dict_set cd (SStr (col_key sheet_name))
                   (PDict (Config.to_dict (flagged_names df))))
        else Raise (TypeError "unsupported operand type(s) for |")
    end.
Proof.
  unfold Config.sheet_step, first_missing, required_columns, and_then, Config.df_loc.
  cbn [List.find].
  pose proof (df_getitem_cell df "IS Derived?") as H1.
  pose proof (df_getitem_cell df "Is Read?") as H2.
  pose proof (df_getitem_cell df "Name") as H3.
  unfold boolean_flags, flagged_names, flagged.
  revert H1 H2 H3. unfold cell.
  destruct (Config.index_of "IS Derived?" (df_columns df)) as [i|] eqn:E1; simpl.
  2: { intros [-> H] _ _. rewrite bool_decide_eq_true_2 by done. reflexivity. }
  intros ->. rewrite bool_decide_eq_false_2
    by (intros H; apply index_of_None in H; congruence).
  destruct (Config.index_of "Is Read?" (df_columns df)) as [j|] eqn:E2; simpl.
  2: { intros [-> H] _. rewrite bool_decide_eq_true_2 by done. reflexivity. }
  intros ->. rewrite bool_decide_eq_false_2
    by (intros H; apply index_of_None in H; congruence).
  rewrite (series_or_rows (λ row, nth i row.2 SNone) (λ row, nth j row.2 SNone)).
  destruct (Config.index_of "Name" (df_columns df)) as [n|] eqn:E3; simpl.
  2: { intros [-> H]. rewrite bool_decide_eq_true_2 by done.
       change (bool_decide ("Name" = "Name")) with true. simpl.
       by destruct (forallb _ (df_rows df)). }
  intros ->. rewrite bool_decide_eq_false_2
    by (intros H; apply index_of_None in H; congruence).
  destruct (forallb _ (df_rows df)); [|done].
  by rewrite (select_rows (λ row, (row.1, nth n row.2 SNone))).
Qed.

Lemma for_sheets_app done rest acc :
  Config.for_sheets (done ++ rest) acc =
    and_then (Config.for_sheets done acc) (Config.for_sheets rest).
Proof.
  revert acc. induction done as [|[name df] done IH]; intros acc; [done|].
  cbn [app Config.for_sheets].
  destruct (Config.sheet_step acc name df) as [acc'|]; cbn [and_then]; [|done].
  apply IH.
Qed.

(** X8: the loop stops at the first sheet that lacks one of the columns
    "IS Derived?", "Is Read?" and "Name", with KeyError on the first of
    them, in this order, that the sheet lacks (for "Name", once the two
    flags have been combined); the sheets after it are not looked at. *)
Theorem for_sheets_missing_column done sheet_name df rest acc acc' col :
  Config.for_sheets done acc = Ok acc' →
  first_missing df = Some col →
  (col = "Name" → boolean_flags df = true) →
  Config.for_sheets (done ++ (sheet_name, df) :: rest) acc
    = Raise (KeyError (SStr col)).
Proof.
  intros Hdone Hcol Hflags.
  rewrite for_sheets_app, Hdone. cbn [and_then Config.for_sheets].
  destruct acc' as [sd cd]. rewrite sheet_step_rows, Hcol.
  destruct (bool_decide (col = "Name")) eqn:E; simpl; [|done].
  apply bool_decide_eq_true in E. by rewrite (Hflags E).
Qed.

Lemma for_sheets_missing_column_witness :
  Config.for_sheets
    ([("Account Name", Sample.accounts)] ++
     ("Ledger", Faults.nameless) :: [("Never Read", Sample.accounts)]) ([], [])
  = Raise (KeyError (SStr "Name")).
Proof.
  apply (for_sheets_missing_column [("Account Name", Sample.accounts)] "Ledger"
           Faults.nameless [("Never Read", Sample.accounts)] ([], [])
           ([(SStr "ACCOUNT_NAME", PDataFrame Sample.accounts)],
            [(SStr "Account_Name", PDict [(SStr "acc_id", PStr "Account Id")])])
           "Name"); reflexivity.
Defined.

(** Reading the dictionary that [to_dict] builds. *)
Lemma dict_get_foldl_Some (s : Config.Series) acc k v :
  Config.dict_get
    (foldl (λ d row, Config.dict_set d row.1 (PScalar row.2)) acc s) k = Some v →
  Config.dict_get acc k = Some v ∨
  ∃ row, row ∈ s ∧ Config.same_key row.1 k = true ∧ v = PScalar row.2.
Proof.
  revert acc. induction s as [|row s IH]; intros acc; simpl; [by left|].
  intros [H|(row' & Hin & Hk & ->)]%IH.
  - rewrite dict_get_set_cases in H.
    destruct (Config.same_key row.1 k) eqn:E; [|by left].
    injection H as <-. right. exists row. split; [left|done].
  - right. exists row'. split; [by right|done].
Qed.

Lemma dict_get_foldl_is_Some (s : Config.Series) acc k :
  is_Some (Config.dict_get acc k) ∨
    (∃ row, row ∈ s ∧ Config.same_key row.1 k = true) →
  is_Some (Config.dict_get
             (foldl (λ d row, Config.dict_set d row.1 (PScalar row.2)) acc s) k).
Proof.
  revert acc. induction s as [|row s IH]; intros acc; simpl.
  - intros [H|(row & Hin & _)]; [done|]. by apply elem_of_nil in Hin.
  - intros H. apply IH. rewrite dict_get_set_cases.
    destruct (Config.same_key row.1 k) eqn:E; [left; eauto|].
    destruct H as [H|(row' & Hin & Hk)]; [by left|].
    apply elem_of_cons in Hin as [->|Hin]; [congruence|].
    right. eauto.
Qed.

(** X9: after a round of the loop the entry of the sheet in [col_dict]
    maps labels to names, and holds exactly the flagged rows: whatever is
    found under a label is the Name of a row with that label one of whose
    flags is true, and every such row has its label in the entry. *)
Theorem sheet_step_selects_flagged schema_dict col_dict sheet_name df
    schema_dict' col_dict' :
  Config.sheet_step (schema_dict, col_dict) sheet_name df
    = Ok (schema_dict', col_dict') →
  ∃ names,
    Config.dict_get col_dict' (SStr (col_key sheet_name)) = Some (PDict names) ∧
    (∀ label v, Config.dict_get names label = Some v →
       ∃ row name, row ∈ df_rows df ∧ flagged df row = true ∧
                   Config.same_key row.1 label = true ∧
                   cell df "Name" row.2 = Some name ∧ v = PScalar name) ∧
    (∀ row, row ∈ df_rows df → flagged df row = true →
       is_Some (Config.dict_get names row.1)).
Proof.
  rewrite sheet_step_rows.
  destruct (first_missing df) as [col|] eqn:Hmiss.
  { by destruct (_ && _). }
  destruct (boolean_flags df); [|discriminate].
  intros [= <- <-]. exists (Config.to_dict (flagged_names df)).
  split; [apply dict_get_set|].
  assert (Hname : ∀ cells, is_Some (cell df "Name" cells)).
  { intros cells. unfold cell.
    destruct (Config.index_of "Name" (df_columns df)) eqn:E; [by eexists|].
    apply index_of_None in E. revert Hmiss.
    unfold first_missing, required_columns. cbn [List.find].
    repeat case_bool_decide; done. }
  split.
  - intros label v [H|((lbl & name) & Hin & Hk & ->)]%dict_get_foldl_Some;
      [discriminate|].
    apply list_elem_of_omap in Hin as (row & Hrow & Hf).
    destruct (flagged df row) eqn:Efl; [|discriminate].
    destruct (cell df "Name" row.2) as [name'|] eqn:Ec; [|discriminate].
    injection Hf as <- <-. by exists row, name'.
  - intros row Hrow Hfl. apply dict_get_foldl_is_Some. right.
    destruct (Hname row.2) as [name Hc].
    exists (row.1, name). split; [|apply same_key_refl].
    apply list_elem_of_omap. exists row. split; [done|].
    by rewrite Hfl, Hc.
Qed.

Lemma sheet_step_selects_flagged_witness :
  ∃ names,
    Config.dict_get
      [(SStr "Account_Name", PDict [(SStr "acc_id", PStr "Account Id")])]
      (SStr (col_key "Account Name")) = Some (PDict names) ∧
    (∀ label v, Config.dict_get names label = Some v →
       ∃ row name, row ∈ df_rows Sample.accounts ∧
                   flagged Sample.accounts row = true ∧
                   Config.same_key row.1 label = true ∧
                   cell Sample.accounts "Name" row.2 = Some name ∧
                   v = PScalar name) ∧
    (∀ row, row ∈ df_rows Sample.accounts → flagged Sample.accounts row = true →
       is_Some (Config.dict_get names row.1)).
Proof.
  apply (sheet_step_selects_flagged [] [] "Account Name" Sample.accounts
           [(SStr "ACCOUNT_NAME", PDataFrame Sample.accounts)]).
  reflexivity.
Defined.

(** ** Config factory: converting the two groups the loop builds *)

Lemma dict_set_tables (d : list (scalar * pyval)) key df :
  Forall (λ kv, ∃ s t, kv = (SStr s, PDataFrame t)) d →
  Forall (λ kv, ∃ s t, kv = (SStr s, PDataFrame t))
         (Config.dict_set d (SStr key) (PDataFrame df)).
Proof.
  induction 1 as [|[k v] d (s & t & [= -> ->]) Hd IH]; simpl.
  - constructor; [eauto | constructor].
  - destruct (Config.same_key (SStr s) (SStr key)); constructor; eauto.
Qed.

Lemma for_sheets_tables sheets sd cd sd' cd' :
  Forall (λ kv, ∃ s t, kv = (SStr s, PDataFrame t)) sd →
  Config.for_sheets sheets (sd, cd) = Ok (sd', cd') →
  Forall (λ kv, ∃ s t, kv = (SStr s, PDataFrame t)) sd'.
Proof.
  revert sd cd. induction sheets as [|[name df] sheets IH]; intros sd cd Hsd;
    cbn [Config.for_sheets].
  - by intros [= <- _].
  - destruct (Config.sheet_step (sd, cd) name df) as [[sd1 cd1]|] eqn:Hstep;
      cbn [and_then]; [|discriminate].
    apply IH. rewrite (sheet_step_schema _ _ _ _ _ _ Hstep).
    by apply dict_set_tables.
Qed.

Lemma tables_convert (d : list (scalar * pyval)) :
  Forall (λ kv, ∃ s t, kv = (SStr s, PDataFrame t)) d →
  ∃ attrs, Config.dict_to_namespace (PDict d) = Ok (PNamespace attrs) ∧
           d = map (λ a, (SStr a.1, a.2)) attrs ∧
           Forall (λ a, ∃ t, a.2 = PDataFrame t) attrs.
Proof.
  intros Hd. rewrite dict_to_namespace_dict.
  assert (map_values Config.dict_to_namespace d = Ok d) as ->.
  { induction Hd as [|[k v] d (s & t & [= -> ->]) _ IH]; simpl; [done|].
    by rewrite IH. }
  unfold Config.SimpleNamespace.
  assert (∃ attrs, Config.keywords d = Ok attrs ∧
                   d = map (λ a, (SStr a.1, a.2)) attrs ∧
                   Forall (λ a, ∃ t, a.2 = PDataFrame t) attrs)
    as (attrs & -> & Hmap & Hall); [|by exists attrs].
  induction Hd as [|[k v] d (s & t & [= -> ->]) _ (attrs & Hk & Hmap & Hall)];
    simpl.
  - exists []. by repeat split.
  - rewrite Hk. exists ((s, PDataFrame t) :: attrs). simpl.
    split; [done|]. split; [by rewrite <- Hmap|]. constructor; eauto.
Qed.

(** X10: whatever the sheets, the Schema group the loop has built always
    converts: each key becomes an attribute and holds the sheet's table,
    unchanged. *)
Theorem schema_group_converts sheets schema_dict col_dict :
  Config.for_sheets sheets ([], []) = Ok (schema_dict, col_dict) →
  ∃ attrs,
    Config.dict_to_namespace (PDict schema_dict) = Ok (PNamespace attrs) ∧
    schema_dict = map (λ a, (SStr a.1, a.2)) attrs ∧
    Forall (λ a, ∃ t, a.2 = PDataFrame t) attrs.
Proof.
  intros H. apply tables_convert. by eapply for_sheets_tables.
Qed.

Lemma schema_group_converts_witness :
  ∃ attrs,
    Config.dict_to_namespace
      (PDict [(SStr "ACCOUNT_NAME", PDataFrame Sample.accounts)])
      = Ok (PNamespace attrs) ∧
    [(SStr "ACCOUNT_NAME", PDataFrame Sample.accounts)]
      = map (λ a, (SStr a.1, a.2)) attrs ∧
    Forall (λ a, ∃ t, a.2 = PDataFrame t) attrs.
Proof.
  apply (schema_group_converts [("Account Name", Sample.accounts)] _
           [(SStr "Account_Name", PDict [(SStr "acc_id", PStr "Account Id")])]).
  reflexivity.
Defined.

Lemma dict_set_has_value {V} (d : list (scalar * V)) k v :
  ∃ k', (k', v) ∈ Config.dict_set d k v.
Proof.
  induction d as [|[k0 v0] d (k' & IH)]; simpl.
  - exists k. left.
  - destruct (Config.same_key k0 k); [exists k0; left | exists k'; by right].
Qed.

Lemma dict_get_elem {V} (d : list (scalar * V)) k v :
  Config.dict_get d k = Some v → ∃ k', (k', v) ∈ d ∧ Config.same_key k' k = true.
Proof.
  induction d as [|[k0 v0] d IH]; simpl; [done|].
  destruct (Config.same_key k0 k) eqn:E.
  - intros [= ->]. exists k0. split; [left|done].
  - intros (k' & Hin & Hk)%IH. exists k'. split; [by right|done].
Qed.

Lemma same_key_not_str k' k :
  Config.same_key k' k = true → is_str k = false → is_str k' = false.
Proof.
  unfold Config.same_key. intros H%bool_decide_eq_true.
  destruct k, k'; simpl in *; done.
Qed.

Lemma forallb_false_elem {A} (f : A → bool) l x :
  x ∈ l → f x = false → forallb f l = false.
Proof.
  induction 1 as [x l|x y l _ IH]; simpl; intros Hx.
  - by rewrite Hx.
  - rewrite (IH Hx). apply andb_false_r.
Qed.

(** X11: a flagged row whose label is not a string (a number, say) cannot
    become an attribute: once the round of the loop has filed the sheet,
    converting [col_dict] raises TypeError. *)
Theorem col_group_needs_string_labels schema_dict col_dict sheet_name df
    schema_dict' col_dict' row :
  Config.sheet_step (schema_dict, col_dict) sheet_name df
    = Ok (schema_dict', col_dict') →
  row ∈ df_rows df → flagged df row = true → is_str row.1 = false →
  Config.dict_to_namespace (PDict col_dict') = Raise keywords_error.
Proof.
  intros Hstep Hrow Hfl Hlabel.
  rewrite sheet_step_rows in Hstep.
  destruct (first_missing df) as [col|] eqn:Hmiss.
  { by destruct (_ && _). }
  destruct (boolean_flags df); [|discriminate].
  injection Hstep as _ <-.
  apply dict_to_namespace_spec. simpl.
  destruct (dict_set_has_value col_dict (SStr (col_key sheet_name))
              (PDict (Config.to_dict (flagged_names df)))) as (k' & Hin).
  apply (forallb_false_elem _ _ _ Hin). simpl.
  apply andb_false_intro2.
  destruct (cell df "Name" row.2) as [name|] eqn:Hname.
  2: { exfalso. revert Hname Hmiss. unfold cell, first_missing, required_columns.
       cbn [List.find].
       destruct (Config.index_of "Name" (df_columns df)) eqn:E; [done|].
       apply index_of_None in E. intros _. repeat case_bool_decide; done. }
  assert (is_Some (Config.dict_get (Config.to_dict (flagged_names df)) row.1))
    as [v Hv].
  { apply dict_get_foldl_is_Some. right. exists (row.1, name).
    split; [|apply same_key_refl].
    apply list_elem_of_omap. exists row. split; [done|]. by rewrite Hfl, Hname. }
  destruct (dict_get_elem _ _ _ Hv) as (label & Hin' & Hk).
  apply (forallb_false_elem _ _ _ Hin'). simpl.
  by rewrite (same_key_not_str _ _ Hk Hlabel).
Qed.

Lemma col_group_needs_string_labels_witness :
  Config.dict_to_namespace
    (PDict [(SStr "Ledger", PDict [(SInt 1, PStr "Account Id")])])
  = Raise keywords_error.
Proof.
  apply (col_group_needs_string_labels [] [] "ledger" Faults.numbered
           [(SStr "LEDGER", PDataFrame Faults.numbered)] _
           (SInt 1, [SStr "Account Id"; SBool true; SBool false]));
    [reflexivity | left | reflexivity | reflexivity].
Defined.

(** ** Config factory: [initialize], stage by stage *)

Section InitializeStages.
Variable L : Libs.

Lemma open_is_builtin (G : gset string) : "open" ∈ G ∪ Config.builtins.
Proof. apply elem_of_union_r. by apply (bool_decide_unpack _). Qed.

Lemma module_binds (extra : gset string) name :
  name ∈ Config.name_space_globals →
  name ∈ Config.name_space_globals ∪ extra ∪ Config.builtins.
Proof. intros H. by apply elem_of_union_l, elem_of_union_l. Qed.

Lemma safe_load_bound : "safe_load" ∈ Config.name_space_globals.
Proof. by apply (bool_decide_unpack _). Qed.

Lemma dotenv_values_bound : "dotenv_values" ∈ Config.name_space_globals.
Proof. by apply (bool_decide_unpack _). Qed.

(** The [with] block of lines 18-19. *)
Lemma load_yaml_run extra yaml_path σ :
  Config.with_open L yaml_path
    (λ yaml_file,
       Config.load_name (Config.name_space_globals ∪ extra) "safe_load" ;;;
       lift (safe_load L yaml_file)) σ =
  match open_r L yaml_path with
  | Ok text =>
      (safe_load L text,
       mkState (self_dict σ)
         (log σ ++ [OpenFile yaml_path; CloseFile yaml_path]))
  | Raise e => (Raise e, mkState (self_dict σ) (log σ ++ [OpenFile yaml_path]))
  end.
Proof.
  unfold Config.with_open, bind at 1, emit at 1, lift at 1. simpl.
  destruct (open_r L yaml_path) as [text|e]; [|done].
  rewrite (bind_ok _ _ _ tt _)
    by (apply load_name_bound, module_binds, safe_load_bound).
  unfold lift, emit. simpl. by rewrite <- app_assoc.
Qed.

Lemma initialize_in_open_fails extra σ yaml_path e :
  self_dict σ !! "yaml_path" = Some yaml_path →
  open_r L yaml_path = Raise e →
  Config.initialize_in L extra σ =
    (Raise e, mkState (self_dict σ) (log σ ++ [OpenFile yaml_path])).
Proof.
  intros Hattr Hopen. unfold Config.initialize_in.
  rewrite (bind_ok _ _ σ tt σ) by apply load_name_bound, open_is_builtin.
  rewrite (bind_ok _ _ σ yaml_path σ) by (unfold getattr_self; by rewrite Hattr).
  apply bind_raise. by rewrite load_yaml_run, Hopen.
Qed.

Lemma initialize_in_parse_fails extra σ yaml_path text e :
  self_dict σ !! "yaml_path" = Some yaml_path →
  open_r L yaml_path = Ok text →
  safe_load L text = Raise e →
  Config.initialize_in L extra σ =
    (Raise e,
     mkState (self_dict σ) (log σ ++ [OpenFile yaml_path; CloseFile yaml_path])).
Proof.
  intros Hattr Hopen Hload. unfold Config.initialize_in.
  rewrite (bind_ok _ _ σ tt σ) by apply load_name_bound, open_is_builtin.
  rewrite (bind_ok _ _ σ yaml_path σ) by (unfold getattr_self; by rewrite Hattr).
  apply bind_raise. by rewrite load_yaml_run, Hopen, Hload.
Qed.

Lemma initialize_in_no_path extra σ :
  self_dict σ !! "yaml_path" = None →
  Config.initialize_in L extra σ = (Raise (AttributeError "yaml_path"), σ).
Proof.
  intros Hattr. unfold Config.initialize_in.
  rewrite (bind_ok _ _ σ tt σ) by apply load_name_bound, open_is_builtin.
  apply bind_raise. unfold getattr_self. by rewrite Hattr.
Qed.

(** X12: an exception raised while the YAML file is opened or parsed comes
    out of [initialize] unchanged; when it is the parser that raised, the
    file has been closed first; nothing else has been accessed, and the
    factory object is as it was. *)
Theorem initialize_yaml_error_propagates extra σ yaml_path e :
  self_dict σ !! "yaml_path" = Some yaml_path →
  open_r L yaml_path = Raise e ∨
    (∃ text, open_r L yaml_path = Ok text ∧ safe_load L text = Raise e) →
  (Config.initialize_in L extra σ).1 = Raise e ∧
  self_dict (Config.initialize_in L extra σ).2 = self_dict σ ∧
  log (Config.initialize_in L extra σ).2 =
    log σ ++ match open_r L yaml_path with
             | Ok _ => [OpenFile yaml_path; CloseFile yaml_path]
             | Raise _ => [OpenFile yaml_path]
             end.
Proof.
  intros Hattr [Hopen|(text & Hopen & Hload)].
  - rewrite (initialize_in_open_fails extra σ yaml_path e) by done.
    by rewrite Hopen.
  - rewrite (initialize_in_parse_fails extra σ yaml_path text e) by done.
    by rewrite Hopen.
Qed.

(** X13: in the module as written, a call reaches no file but the YAML
    file: whatever the libraries do and whatever the factory holds, the
    events of the call are the opening and the closing of the YAML file, or
    fewer; the spreadsheet and the secrets file are never read. *)
Theorem initialize_touches_only_yaml σ :
  ∃ evs,
    log (Config.initialize L σ).2 = log σ ++ evs ∧
    self_dict (Config.initialize L σ).2 = self_dict σ ∧
    (evs = [] ∨
     ∃ yaml_path, self_dict σ !! "yaml_path" = Some yaml_path ∧
       (evs = [OpenFile yaml_path] ∨
        evs = [OpenFile yaml_path; CloseFile yaml_path])).
Proof.
  unfold Config.initialize.
  destruct (self_dict σ !! "yaml_path") as [yaml_path|] eqn:Hattr.
  2: { exists []. rewrite initialize_in_no_path by done.
       simpl. rewrite app_nil_r. repeat split; auto. }
  destruct (open_r L yaml_path) as [text|e] eqn:Hopen.
  2: { exists [OpenFile yaml_path].
       rewrite (initialize_in_open_fails ∅ σ yaml_path e) by done.
       simpl. repeat (split; [done|]). right. exists yaml_path. auto. }
  exists [OpenFile yaml_path; CloseFile yaml_path].
  destruct (safe_load L text) as [yaml_dict|e] eqn:Hload.
  - rewrite (initialize_in_after_yaml L ∅ σ yaml_path text yaml_dict)
      by auto using pd_unbound.
    simpl. repeat (split; [done|]). right. exists yaml_path. auto.
  - rewrite (initialize_in_parse_fails ∅ σ yaml_path text e) by done.
    simpl. repeat (split; [done|]). right. exists yaml_path. auto.
Qed.

(** X14: in a module namespace that also binds [pd], a call all of whose
    steps succeed returns the converted object after exactly four
    accesses, in this order: the YAML file opened and closed, the
    spreadsheet at its fixed path read with every sheet and the Variable
    column as index, and the secrets file named by Path.ENV read. *)
Theorem initialize_in_succeeds extra σ yaml_path text yaml_dict sheets
    schema_dict col_dict path env secret param ns :
  "pd" ∈ extra →
  self_dict σ !! "yaml_path" = Some yaml_path →
  open_r L yaml_path = Ok text →
  safe_load L text = Ok yaml_dict →
  pd_read_excel_sheets L Config.schema_xlsx (PStr "Variable") = Ok sheets →
  Config.for_sheets sheets ([], []) = Ok (schema_dict, col_dict) →
  Config.getitem yaml_dict "Path" = Ok path →
  Config.getitem path "ENV" = Ok env →
  dotenv_values L env = Ok secret →
  Config.getitem yaml_dict "Param" = Ok param →
  Config.dict_to_namespace
    (PDict [ (SStr "Schema", PDict schema_dict);
             (SStr "Col", PDict col_dict);
             (SStr "Path", path);
             (SStr "Secret", Config.secret_dict secret);
             (SStr "Param", param) ]) = Ok ns →
  Config.initialize_in L extra σ =
    (Ok ns,
     mkState (self_dict σ)
       (log σ ++
        [ OpenFile yaml_path; CloseFile yaml_path;
          PdReadExcel (PStr "data/config/schema.xlsx")
            [("sheet_name", PNone); ("index_col", PStr "Variable")];
          DotenvValues env ])).
Proof.
  intros Hpd Hattr Hopen Hload Hsheets Hloop Hpath Henv Hsecret Hparam Hns.
  unfold Config.initialize_in.
  rewrite (bind_ok _ _ σ tt σ) by apply load_name_bound, open_is_builtin.
  rewrite (bind_ok _ _ σ yaml_path σ) by (unfold getattr_self; by rewrite Hattr).
  erewrite bind_ok; [|by rewrite load_yaml_run, Hopen, Hload].
  erewrite bind_ok;
    [|apply load_name_bound, elem_of_union_l, elem_of_union_r, Hpd].
  erewrite bind_ok; [|reflexivity].
  erewrite bind_ok; [|unfold lift; by rewrite Hsheets].
  erewrite bind_ok; [|unfold lift; by rewrite Hloop].
  cbv beta iota.
  erewrite bind_ok; [|unfold lift; by rewrite Hpath].
  erewrite bind_ok;
    [|apply load_name_bound, module_binds, dotenv_values_bound].
  erewrite bind_ok; [|unfold lift; by rewrite Hpath].
  erewrite bind_ok; [|unfold lift; by rewrite Henv].
  erewrite bind_ok; [|reflexivity].
  erewrite bind_ok; [|unfold lift; by rewrite Hsecret].
  erewrite bind_ok; [|unfold lift; by rewrite Hparam].
  unfold lift. rewrite Hns. simpl. by rewrite <- !app_assoc.
Qed.

End InitializeStages.

Lemma initialize_yaml_error_propagates_witness :
  (Config.initialize_in Faults.libs_bad_yaml ∅ Sample.config_factory).1
    = Raise (YAMLError "mapping values are not allowed here") ∧
  self_dict (Config.initialize_in Faults.libs_bad_yaml ∅ Sample.config_factory).2
    = self_dict Sample.config_factory ∧
  log (Config.initialize_in Faults.libs_bad_yaml ∅ Sample.config_factory).2 =
    log Sample.config_factory ++
    match open_r Faults.libs_bad_yaml (PStr "config.yaml") with
    | Ok _ => [OpenFile (PStr "config.yaml"); CloseFile (PStr "config.yaml")]
    | Raise _ => [OpenFile (PStr "config.yaml")]
    end.
Proof.
  apply (initialize_yaml_error_propagates Faults.libs_bad_yaml ∅
           Sample.config_factory (PStr "config.yaml")
           (YAMLError "mapping values are not allowed here")).
  - reflexivity.
  - right. exists Sample.yaml_text. split; reflexivity.
Defined.

Lemma initialize_in_succeeds_witness :
  ∃ ns,
    Config.initialize_in Sample.libs {["pd"]} Sample.config_factory =
      (Ok ns,
       mkState (self_dict Sample.config_factory)
         (log Sample.config_factory ++
          [ OpenFile (PStr "config.yaml"); CloseFile (PStr "config.yaml");
            PdReadExcel (PStr "data/config/schema.xlsx")
              [("sheet_name", PNone); ("index_col", PStr "Variable")];
            DotenvValues (PStr "secrets.env") ])).
Proof.
  eexists.
  apply (initialize_in_succeeds Sample.libs {["pd"]} Sample.config_factory
           (PStr "config.yaml") Sample.yaml_text Sample.yaml_tree
           [("Account Name", Sample.accounts)]
           [(SStr "ACCOUNT_NAME", PDataFrame Sample.accounts)]
           [(SStr "Account_Name", PDict [(SStr "acc_id", PStr "Account Id")])]
           (PDict [(SStr "ENV", PStr "secrets.env")]) (PStr "secrets.env")
           [("TOKEN", Some "abc")]
           (PDict [(SStr "retries", PScalar (SInt 3))]));
    first [reflexivity | by apply elem_of_singleton].
Defined.

(** ** Config factory: the constructor and the script *)

Lemma ConfigFactory_Ok_inv args kw s :
  ConfigFactory args kw = Ok s →
  ∃ v, (args = [v] ∧ kw = [] ∨ args = [] ∧ kw = [("yaml_path", v)]) ∧
       s = mkState (<["yaml_path" := v]> ∅) [].
Proof.
  unfold ConfigFactory, bind_param, and_then.
  destruct args as [|v [|? ?]], kw as [|[k w] [|? ?]]; try discriminate.
  - case_decide; [subst|discriminate]. intros [= <-]. exists w. auto.
  - intros [= <-]. exists v. auto.
Qed.

(** X15: a factory can only be built with exactly one argument, given by
    position or as the keyword [yaml_path], and [initialize] on a factory
    so built starts by opening the path it was built with. *)
Theorem initialize_opens_constructor_path L args kw s :
  ConfigFactory args kw = Ok s →
  ∃ yaml_path evs,
    (args = [yaml_path] ∧ kw = [] ∨
     args = [] ∧ kw = [("yaml_path", yaml_path)]) ∧
    log (Config.initialize L s).2 = OpenFile yaml_path :: evs.
Proof.
  intros (v & Hargs & ->)%ConfigFactory_Ok_inv.
  set (s := mkState (<["yaml_path" := v]> ∅) []).
  assert (Hattr : self_dict s !! "yaml_path" = Some v) by apply lookup_insert_eq.
  unfold Config.initialize.
  destruct (open_r L v) as [text|e] eqn:Hopen.
  - destruct (safe_load L text) as [yaml_dict|e] eqn:Hload.
    + exists v, [CloseFile v]. split; [done|].
      by rewrite (initialize_in_after_yaml L ∅ s v text yaml_dict)
        by auto using pd_unbound.
    + exists v, [CloseFile v]. split; [done|].
      by rewrite (initialize_in_parse_fails L ∅ s v text e).
  - exists v, []. split; [done|].
    by rewrite (initialize_in_open_fails L ∅ s v e).
Qed.

Lemma initialize_opens_constructor_path_witness :
  ∃ yaml_path evs,
    (@nil pyval = [yaml_path] ∧
       ([("yaml_path", PStr "config.yaml")] : kwargs) = [] ∨
     @nil pyval = [] ∧
       ([("yaml_path", PStr "config.yaml")] : kwargs) = [("yaml_path", yaml_path)]) ∧
    log (Config.initialize Sample.libs
           (mkState (<["yaml_path" := PStr "config.yaml"]> ∅) [])).2
      = OpenFile yaml_path :: evs.
Proof.
  apply (initialize_opens_constructor_path Sample.libs []
           [("yaml_path", PStr "config.yaml")]).
  reflexivity.
Defined.

(** X16: run as a script, the module ends in an exception and never
    prints "End": either [os.chdir] raises, or the constructor, called
    without its argument, raises TypeError.  Imported under another name,
    the block does nothing. *)
Theorem run_module_never_prints chdir name :
  (Printed "End" ∉ (run_module chdir name).2) ∧
  (name = "__main__" →
     (run_module chdir name).2 = [Chdir (PStr "..")] ∧
     ∃ e, (run_module chdir name).1 = Raise e ∧
          (chdir (PStr "..") = Ok tt →
           e = TypeError "missing 1 required positional argument")) ∧
  (name ≠ "__main__" → run_module chdir name = (Ok None, [])).
Proof.
  unfold run_module. destruct (decide (name = "__main__")) as [->|Hne].
  - change (ConfigFactory [] [])
      with (@Raise state (TypeError "missing 1 required positional argument")).
    destruct (chdir (PStr "..")) as [[]|e] eqn:Hcd; simpl.
    + split; [|split; [|done]].
      * intros [H|H]%elem_of_cons; [discriminate|]. by apply elem_of_nil in H.
      * intros _. split; [done|]. eauto.
    + split; [|split; [|done]].
      * intros [H|H]%elem_of_cons; [discriminate|]. by apply elem_of_nil in H.
      * intros _. split; [done|]. exists e. split; [done|]. discriminate.
  - split; [apply not_elem_of_nil|]. split; [done|]. done.
Qed.

Lemma run_module_never_prints_witness :
  (run_module (λ _, Ok tt) "__main__").2 = [Chdir (PStr "..")] ∧
  ∃ e, (run_module (λ _, Ok tt) "__main__").1 = Raise e ∧
       ((λ _ : pyval, @Ok unit tt) (PStr "..") = Ok tt →
        e = TypeError "missing 1 required positional argument").
Proof.
  apply (proj1 (proj2 (run_module_never_prints (λ _, Ok tt) "__main__"))).
  reflexivity.
Defined.

(** * The recursion limit, and what a successful call exposes *)

(** ** [dict_to_namespace] under the recursion limit *)

Lemma map_values_ext (f g : pyval → result pyval) items :
  Forall (λ kv, f kv.2 = g kv.2) items → map_values f items = map_values g items.
Proof.
  induction 1 as [|[k x] items Hx _ IH]; simpl in *; [done|].
  by rewrite Hx, IH.
Qed.

Lemma map_values_Ok_inv (f : pyval → result pyval) items d :
  map_values f items = Ok d → Forall (λ kv, ∃ y, f kv.2 = Ok y) items.
Proof.
  revert d. induction items as [|[k x] items IH]; intros d; simpl; [by constructor|].
  destruct (f x) as [y|] eqn:Hx; [|discriminate].
  destruct (map_values f items) as [d'|]; [|discriminate].
  intros _. constructor; [by exists y | by eapply IH].
Qed.

Lemma foldr_max_le comp (items : list (scalar * pyval)) n :
  foldr (λ kv m, Nat.max (frames_needed comp kv.2) m) O items ≤ n ↔
  Forall (λ kv, frames_needed comp kv.2 ≤ n) items.
Proof.
  induction items as [|kv items IH]; simpl.
  - split; [by constructor | lia].
  - rewrite Nat.max_lub_iff, IH, Forall_cons. done.
Qed.

(** A map, once its own frames are paid. *)
Lemma dict_to_namespace_within_dict comp frames items :
  dict_to_namespace_within comp (map_frames comp + frames) (PDict items) =
    match map_values (dict_to_namespace_within comp frames) items with
    | Ok d => Config.SimpleNamespace d
    | Raise e => Raise e
    end.
Proof. by destruct comp. Qed.

Lemma dict_to_namespace_within_short comp frames items :
  frames < map_frames comp →
  dict_to_namespace_within comp frames (PDict items) = Raise RecursionError.
Proof. destruct comp, frames as [|[|frames]]; simpl; done || lia. Qed.

(** With frames enough, the limit is not felt. *)
Lemma dict_to_namespace_within_enough comp v frames :
  frames_needed comp v ≤ frames →
  dict_to_namespace_within comp frames v = Config.dict_to_namespace v.
Proof.
  revert frames.
  induction v as [c|l _|items IH|df|attrs _] using pyval_nested_ind;
    intros frames Hle;
    try (destruct frames; [simpl in Hle; lia | done]).
  cbn [frames_needed] in Hle.
  replace frames with (map_frames comp + (frames - map_frames comp)) by lia.
  rewrite dict_to_namespace_within_dict, dict_to_namespace_dict.
  assert (Hall : Forall (λ kv, frames_needed comp kv.2 ≤ frames - map_frames comp)
                        items) by (apply foldr_max_le; lia).
  rewrite (map_values_ext (dict_to_namespace_within comp (frames - map_frames comp))
             Config.dict_to_namespace); [done|].
  clear -IH Hall. induction IH as [|kv items Hkv _ IHi]; [by constructor|].
  apply Forall_cons in Hall as [Hle1 Hle2]. constructor; auto.
Qed.

(** With too few, the call does not return. *)
Lemma dict_to_namespace_within_too_deep comp v frames ns :
  frames < frames_needed comp v → dict_to_namespace_within comp frames v ≠ Ok ns.
Proof.
  revert frames ns.
  induction v as [c|l _|items IH|df|attrs _] using pyval_nested_ind;
    intros frames ns Hlt;
    try (destruct frames; [done | simpl in Hlt; lia]).
  cbn [frames_needed] in Hlt.
  destruct (decide (frames < map_frames comp)) as [Hshort|Hlong].
  { by rewrite dict_to_namespace_within_short. }
  replace frames with (map_frames comp + (frames - map_frames comp)) by lia.
  rewrite dict_to_namespace_within_dict.
  destruct (map_values (dict_to_namespace_within comp (frames - map_frames comp))
              items) as [d|] eqn:Hd; [|done].
  exfalso. apply map_values_Ok_inv in Hd.
  assert (Hall : Forall (λ kv, frames_needed comp kv.2 ≤ frames - map_frames comp)
                        items).
  { clear -IH Hd. induction IH as [|kv items Hkv _ IHi]; [by constructor|].
    apply Forall_cons in Hd as [[y Hy] Hd]. constructor; [|by apply IHi].
    destruct (decide (frames_needed comp kv.2 ≤ frames - map_frames comp))
      as [|Hn]; [done|].
    exfalso. apply (Hkv (frames - map_frames comp) y); [lia | done]. }
  apply foldr_max_le in Hall. lia.
Qed.

Lemma nest_str_keyed n : str_keyed (nest n) = true.
Proof. induction n as [|n IH]; simpl; [done|]. by rewrite IH. Qed.

Lemma nest_too_deep comp n frames :
  frames ≤ n →
  dict_to_namespace_within comp frames (nest n) = Raise RecursionError.
Proof.
  revert frames. induction n as [|n IH]; intros [|frames] Hle; try done; [lia|].
  cbn [nest dict_to_namespace_within]. destruct comp.
  - destruct frames as [|frames]; [done|].
    cbn [map_values]. by rewrite IH by lia.
  - cbn [map_values]. by rewrite IH by lia.
Qed.

(** C9, as the code has it: when the nesting of the input is within what
    the recursion limit allows, the call returns the input with every map,
    at the top or nested as the value of a map, turned into an object whose
    attributes are the keys, provided all their keys are strings, and
    raises TypeError when one of these maps has a key that is not a string;
    every other value is left as it is, a list with whatever it holds
    included.  When the nesting goes beyond the limit, the call does not
    return. *)
Theorem dict_to_namespace_within_converts comp frames v :
  (frames_needed comp v ≤ frames →
     (str_keyed v = true →
      ∃ ns, dict_to_namespace_within comp frames v = Ok ns ∧ converted v ns) ∧
     (str_keyed v = false →
      dict_to_namespace_within comp frames v = Raise keywords_error)) ∧
  (frames < frames_needed comp v →
     ∀ ns, dict_to_namespace_within comp frames v ≠ Ok ns).
Proof.
  split.
  - intros Hle. rewrite (dict_to_namespace_within_enough comp v frames Hle).
    apply dict_to_namespace_spec.
  - intros Hlt ns. by apply dict_to_namespace_within_too_deep.
Qed.

Lemma dict_to_namespace_within_converts_witness :
  ∃ ns, dict_to_namespace_within true 5 Sample.yaml_tree = Ok ns
        ∧ converted Sample.yaml_tree ns.
Proof.
  apply (proj1 (proj1 (dict_to_namespace_within_converts true 5 Sample.yaml_tree)
                  ltac:(vm_compute; lia))).
  reflexivity.
Defined.

(** C9 as stated fails three ways.  A map with the key 1 is an input
    value, and the call never returns on it.  A map inside a list is a
    nested map of the input, and it comes back a map.  And whatever the
    recursion limit, a map with string keys nested deep enough makes the
    call raise RecursionError. *)
Lemma dict_to_namespace_limits :
  (∀ comp frames ns,
     dict_to_namespace_within comp frames (PDict [(SInt 1, PStr "a")]) ≠ Ok ns) ∧
  Config.dict_to_namespace (PDict [(SInt 1, PStr "a")])
    = Raise (TypeError "keywords must be strings") ∧
  (∀ comp frames, 3 ≤ frames →
     dict_to_namespace_within comp frames
       (PDict [(SStr "a", PList [PDict [(SStr "b", PScalar (SInt 1))]])])
     = Ok (PNamespace [("a", PList [PDict [(SStr "b", PScalar (SInt 1))]])])) ∧
  has_map (PNamespace [("a", PList [PDict [(SStr "b", PScalar (SInt 1))]])])
    = true ∧
  (∀ comp frames,
     str_keyed (nest frames) = true ∧
     dict_to_namespace_within comp frames (nest frames) = Raise RecursionError) ∧
  (∀ comp frames,
     ¬ (∀ v, ∃ ns, dict_to_namespace_within comp frames v = Ok ns
                   ∧ converted v ns)).
Proof.
  split; [|split; [reflexivity|split; [|split; [reflexivity|split]]]].
  - intros [] [|[|[|frames]]] ns; discriminate.
  - intros [] [|[|[|frames]]] Hle; (lia || reflexivity).
  - intros comp frames. split; [apply nest_str_keyed | by apply nest_too_deep].
  - intros comp frames H. destruct (H (nest frames)) as (ns & Hns & _).
    rewrite nest_too_deep in Hns by done. discriminate Hns.
Qed.

(** ** What a successful [initialize] exposes *)

Lemma dict_to_namespace_Ok_converted v v' :
  Config.dict_to_namespace v = Ok v' → converted v v'.
Proof.
  intros Hv. destruct (dict_to_namespace_spec v) as [Ht Hf].
  destruct (str_keyed v).
  - destruct (Ht eq_refl) as (ns & Hns & Hc). congruence.
  - rewrite (Hf eq_refl) in Hv. discriminate.
Qed.

Lemma converted_dict_inv items v' :
  converted (PDict items) v' →
  ∃ attrs, v' = PNamespace attrs ∧
    Forall2 (λ kv av, kv.1 = SStr av.1 ∧ converted kv.2 av.2) items attrs.
Proof.
  inversion 1 as [v Hleaf|items' attrs Hall]; subst.
  - by destruct (Hleaf items).
  - eauto.
Qed.

Lemma converted_scalar c v' : converted (PScalar c) v' → v' = PScalar c.
Proof. by inversion 1. Qed.

Lemma converted_find_attr items attrs k v :
  Forall2 (λ kv av, kv.1 = SStr av.1 ∧ converted kv.2 av.2) items attrs →
  Config.dict_get items (SStr k) = Some v →
  ∃ v', find_attr attrs k = Some v' ∧ converted v v'.
Proof.
  induction 1 as [|[k0 x] [a y] items attrs [Hk Hc] _ IH]; simpl in *; [done|].
  subst k0. rewrite same_key_str.
  destruct (decide (a = k)) as [->|Hne].
  - rewrite bool_decide_eq_true_2 by done. intros [= <-]. eauto.
  - rewrite bool_decide_eq_false_2 by done. apply IH.
Qed.

Lemma getitem_Ok_inv obj key v :
  Config.getitem obj key = Ok v →
  ∃ items, obj = PDict items ∧ Config.dict_get items (SStr key) = Some v.
Proof.
  destruct obj as [c|l|items|df|attrs]; simpl; try discriminate.
  destruct (Config.dict_get items (SStr key)) as [w|] eqn:E; [|discriminate].
  intros [= <-]. eauto.
Qed.

Lemma secret_dict_converts kv :
  Config.dict_to_namespace (Config.secret_dict kv) = Ok (secret_namespace kv).
Proof.
  unfold Config.secret_dict, secret_namespace. rewrite dict_to_namespace_dict.
  assert (Hvals : ∀ l : list (string * option string),
    map_values Config.dict_to_namespace
      (map (λ p, (SStr p.1, match p.2 with Some v => PStr v | None => PNone end)) l)
    = Ok (map (λ p, (SStr p.1, match p.2 with Some v => PStr v | None => PNone end)) l)).
  { induction l as [|[k [v|]] l IHl]; simpl; [done|by rewrite IHl..]. }
  rewrite Hvals. unfold Config.SimpleNamespace.
  assert (Hkw : ∀ l : list (string * option string),
    Config.keywords
      (map (λ p, (SStr p.1, match p.2 with Some v => PStr v | None => PNone end)) l)
    = Ok (map (λ p, (p.1, match p.2 with Some v => PStr v | None => PNone end)) l)).
  { induction l as [|[k o] l IHl]; simpl; [done|by rewrite IHl]. }
  by rewrite Hkw.
Qed.

(** C7: whenever a call returns, on a YAML file that defines Path.ENV as
    "secrets.env" and a Param block, the object returned has the
    attribute Path, whose attribute ENV is "secrets.env"; the attribute
    Param, which is the Param block of the file, its maps turned into
    objects and everything else as in the file; and the attribute Secret,
    whose attributes are the pairs that dotenv_values read from
    "secrets.env".  This holds in whatever namespace the method runs. *)
Theorem initialize_exposes_yaml L extra σ ns yaml_path text yaml_dict param :
  (Config.initialize_in L extra σ).1 = Ok ns →
  self_dict σ !! "yaml_path" = Some yaml_path →
  open_r L yaml_path = Ok text →
  safe_load L text = Ok yaml_dict →
  path_env yaml_dict = Ok (PStr "secrets.env") →
  Config.getitem yaml_dict "Param" = Ok param →
  ∃ cfg_path cfg_param kv,
    ns_getattr ns "Path" = Some cfg_path ∧
    ns_getattr cfg_path "ENV" = Some (PStr "secrets.env") ∧
    ns_getattr ns "Param" = Some cfg_param ∧
    converted param cfg_param ∧
    dotenv_values L (PStr "secrets.env") = Ok kv ∧
    ns_getattr ns "Secret" = Some (secret_namespace kv).
Proof.
  intros Hrun Hattr Hopen Hload Henv Hparam.
  apply initialize_in_Ok_shape in Hrun
    as (yaml_path' & text' & yaml_dict' & path & env & kv & param' & schema & col
        & path' & secret' & param'' & Hattr' & Hopen' & Hload' & Hpath & Henv'
        & Hkv & Hparam' & Hcp & Hcs & Hcq & ->).
  assert (yaml_path' = yaml_path) as -> by congruence.
  assert (text' = text) as -> by congruence.
  assert (yaml_dict' = yaml_dict) as -> by congruence.
  assert (param' = param) as -> by congruence.
  unfold path_env in Henv. rewrite Hpath in Henv. simpl in Henv.
  assert (env = PStr "secrets.env") as -> by congruence.
  rewrite secret_dict_converts in Hcs. injection Hcs as <-.
  apply dict_to_namespace_Ok_converted in Hcp, Hcq.
  apply getitem_Ok_inv in Henv as (items & -> & Hget).
  apply converted_dict_inv in Hcp as (attrs & -> & Hall).
  destruct (converted_find_attr _ _ _ _ Hall Hget) as (v' & Hfind & Hconv).
  apply converted_scalar in Hconv as ->.
  exists (PNamespace attrs), param'', kv. by repeat split.
Qed.

Lemma initialize_exposes_yaml_witness :
  ∃ cfg_path cfg_param kv,
    ns_getattr
      (PNamespace
         [ ("Schema", PNamespace [("ACCOUNT_NAME", PDataFrame Sample.accounts)]);
           ("Col", PNamespace
                     [("Account_Name",
                       PNamespace [("acc_id", PStr "Account Id")])]);
           ("Path", PNamespace [("ENV", PStr "secrets.env")]);
           ("Secret", PNamespace [("TOKEN", PStr "abc")]);
           ("Param", PNamespace [("retries", PScalar (SInt 3))]) ])
      "Path" = Some cfg_path ∧
    ns_getattr cfg_path "ENV" = Some (PStr "secrets.env") ∧
    ns_getattr
      (PNamespace
         [ ("Schema", PNamespace [("ACCOUNT_NAME", PDataFrame Sample.accounts)]);
           ("Col", PNamespace
                     [("Account_Name",
                       PNamespace [("acc_id", PStr "Account Id")])]);
           ("Path", PNamespace [("ENV", PStr "secrets.env")]);
           ("Secret", PNamespace [("TOKEN", PStr "abc")]);
           ("Param", PNamespace [("retries", PScalar (SInt 3))]) ])
      "Param" = Some cfg_param ∧
    converted (PDict [(SStr "retries", PScalar (SInt 3))]) cfg_param ∧
    dotenv_values Sample.libs (PStr "secrets.env") = Ok kv ∧
    ns_getattr
      (PNamespace
         [ ("Schema", PNamespace [("ACCOUNT_NAME", PDataFrame Sample.accounts)]);
           ("Col", PNamespace
                     [("Account_Name",
                       PNamespace [("acc_id", PStr "Account Id")])]);
           ("Path", PNamespace [("ENV", PStr "secrets.env")]);
           ("Secret", PNamespace [("TOKEN", PStr "abc")]);
           ("Param", PNamespace [("retries", PScalar (SInt 3))]) ])
      "Secret" = Some (secret_namespace kv).
Proof.
  apply (initialize_exposes_yaml Sample.libs {["pd"]} Sample.config_factory _
           (PStr "config.yaml") Sample.yaml_text Sample.yaml_tree
           (PDict [(SStr "retries", PScalar (SInt 3))]));
    vm_compute; reflexivity.
Defined.

(** ** Two calls in a row, in the module as written *)

(** C8: in the sample world two calls in a row on one factory both raise
    NameError on [pd]: neither returns an object, so there are no two
    objects to be equal. *)
Theorem initialize_twice_raises :
  let first := Config.initialize Sample.libs Sample.config_factory in
  let second := Config.initialize Sample.libs first.2 in
  first.1 = Raise (NameError "pd") ∧
  second.1 = Raise (NameError "pd") ∧
  (∀ ns, first.1 ≠ Ok ns) ∧ (∀ ns, second.1 ≠ Ok ns).
Proof.
  assert (H1 : (Config.initialize Sample.libs Sample.config_factory).1
               = Raise (NameError "pd")) by (vm_compute; reflexivity).
  assert (H2 : (Config.initialize Sample.libs
                  (Config.initialize Sample.libs Sample.config_factory).2).1
               = Raise (NameError "pd")) by (vm_compute; reflexivity).
  simpl. rewrite H1, H2. repeat split; discriminate.
Qed.

(** ** The two keys of a sheet *)

(** X6: for a sheet name made of ASCII characters, the two keys under
    which a round of the loop files the sheet differ in case only: the
    round puts the names of the flagged rows in [col_dict] under the key of
    line 26, puts the table in [schema_dict] under that same key in upper
    case, and changes nothing else in the two dictionaries. *)
Theorem sheet_keys_differ_in_case schema_dict col_dict sheet_name df
    schema_dict' col_dict' :
  ascii_only sheet_name = true →
  Config.sheet_step (schema_dict, col_dict) sheet_name df
    = Ok (schema_dict', col_dict') →
  schema_key sheet_name = upper (col_key sheet_name) ∧
  col_dict' =
    Config.dict_set col_dict (SStr (col_key sheet_name))
      (PDict (Config.to_dict (flagged_names df))) ∧
  schema_dict' =
    Config.dict_set schema_dict (SStr (upper (col_key sheet_name)))
      (PDataFrame df).
Proof.
  intros _. rewrite sheet_step_rows.
  destruct (first_missing df) as [col|]; [by destruct (_ && _)|].
  destruct (boolean_flags df); [|discriminate].
  intros [= <- <-]. by rewrite <- schema_key_upper.
Qed.

Lemma sheet_keys_differ_in_case_witness :
  schema_key "Account Name" = upper (col_key "Account Name") ∧
  [(SStr "Account_Name", PDict [(SStr "acc_id", PStr "Account Id")])] =
    Config.dict_set [] (SStr (col_key "Account Name"))
      (PDict (Config.to_dict (flagged_names Sample.accounts))) ∧
  [(SStr "ACCOUNT_NAME", PDataFrame Sample.accounts)] =
    Config.dict_set [] (SStr (upper (col_key "Account Name")))
      (PDataFrame Sample.accounts).
Proof.
  apply (sheet_keys_differ_in_case [] [] "Account Name" Sample.accounts);
    reflexivity.
Defined.
